(** * Bewerbungs-Bot (bot.py): a shallow embedding and its properties

    The bot keeps one JSON record and one job cache per Telegram user,
    runs two guided conversations (/setup, /jobsetup), a daily digest
    and a callback that turns a cached posting into a cover letter.
    The embedding follows bot.py function by function.

    - Strings are sequences of code points, so that [len] counts what
      Python counts; [.encode()] is UTF-8 and fails on surrogates.
    - The files under user_data/ are two maps from user id to content;
      reading and writing them is taken to succeed and to round-trip.
    - Handlers run in a state-and-exception monad over the two maps, the
      per-user [context.user_data] and the trace of everything done to
      the outside. An exception is any subclass of [Exception].
    - The Telegram transport, JobSpy, the Anthropic client and the file
      download are an environment record; what they answer may depend
      on everything that happened before. *)

From Stdlib Require Import NArith ZArith String Ascii List Lia DecimalString
  DecimalPos DecimalZ.
From stdpp Require Import base option list gmap fin_maps.

Local Open Scope N_scope.

(* ===================================================================== *)
(** ** Python strings *)
(* ===================================================================== *)

Module Py.

(** A Python [str] is a sequence of code points; [len] counts code
    points, not bytes. [bytes] is a sequence of octets. *)
Abbreviation str := (list N).
Abbreviation bytes := (list N).

(** An ASCII literal of the source, as code points. *)
Definition lit (s : string) : str :=
  List.map N_of_ascii (list_ascii_of_string s).

(** [str.isspace] on one code point (CPython's _PyUnicode_IsWhitespace). *)
Definition isspace (c : N) : bool :=
  ((0x09 <=? c) && (c <=? 0x0D)) || ((0x1C <=? c) && (c <=? 0x20))
  || (c =? 0x85) || (c =? 0xA0) || (c =? 0x1680)
  || ((0x2000 <=? c) && (c <=? 0x200A))
  || (c =? 0x2028) || (c =? 0x2029) || (c =? 0x202F) || (c =? 0x205F)
  || (c =? 0x3000).

Fixpoint lstrip (s : str) : str :=
  match s with
  | c :: s' => if isspace c then lstrip s' else s
  | [] => []
  end.

Definition rstrip (s : str) : str := rev (lstrip (rev s)).

(** [s.strip()] *)
Definition strip (s : str) : str := rstrip (lstrip s).

(** [s.lower()], on the ASCII letters; other code points are kept as
    they are (the full Unicode case tables are not reproduced). *)
Definition lower1 (c : N) : N :=
  if (0x41 <=? c) && (c <=? 0x5A) then c + 0x20 else c.
Definition lower (s : str) : str := List.map lower1 s.

(** [s.split(sep)] for a one-character separator: never empty. *)
Fixpoint split (sep : N) (s : str) : list str :=
  match s with
  | [] => [[]]
  | c :: s' =>
      if c =? sep then [] :: split sep s'
      else match split sep s' with
           | p :: ps => (c :: p) :: ps
           | [] => [[c]]
           end
  end.

(** [s.replace(a, b)] for one-character [a] and [b]. *)
Definition replace (a b : N) (s : str) : str :=
  List.map (fun c => if c =? a then b else c) s.

(** [s[:n]] *)
Definition prefix (n : nat) (s : str) : str := firstn n s.

(** [s * n] *)
Definition times (s : str) (n : nat) : str := List.concat (List.repeat s n).

Definition isdigit (c : N) : bool := (0x30 <=? c) && (c <=? 0x39).

(** The digits of an [int()] literal after the sign: decimal digits
    with single underscores between them. [acc] is the value read so
    far, [prev] tells whether the previous character was a digit. *)
Fixpoint int_digits (acc : Z) (prev : bool) (s : str) : option Z :=
  match s with
  | [] => if prev then Some acc else None
  | c :: s' =>
      if isdigit c then int_digits (10 * acc + Z.of_N (c - 0x30))%Z true s'
      else if (c =? 0x5F) && prev then
        match s' with
        | [] => None
        | _ => int_digits acc false s'
        end
      else None
  end.

(** [int(s)] on a str: surrounding whitespace is dropped, one optional
    sign, then the digits. [None] is ValueError. ASCII digits only. *)
Definition int (s : str) : option Z :=
  match strip s with
  | 0x2D :: ds => Z.opp <$> int_digits 0%Z false ds
  | 0x2B :: ds => int_digits 0%Z false ds
  | ds => int_digits 0%Z false ds
  end.

(** UTF-8 of one code point; surrogates cannot be encoded. *)
Definition encode1 (c : N) : option bytes :=
  if c <? 0x80 then Some [c]
  else if c <? 0x800 then
    Some [0xC0 + N.shiftr c 6; 0x80 + N.land c 0x3F]
  else if (0xD800 <=? c) && (c <=? 0xDFFF) then None
  else if c <? 0x10000 then
    Some [0xE0 + N.shiftr c 12; 0x80 + N.land (N.shiftr c 6) 0x3F;
          0x80 + N.land c 0x3F]
  else if c <? 0x110000 then
    Some [0xF0 + N.shiftr c 18; 0x80 + N.land (N.shiftr c 12) 0x3F;
          0x80 + N.land (N.shiftr c 6) 0x3F; 0x80 + N.land c 0x3F]
  else None.

(** [s.encode()]: [None] is UnicodeEncodeError. *)
Fixpoint encode (s : str) : option bytes :=
  match s with
  | [] => Some []
  | c :: s' =>
      match encode1 c, encode s' with
      | Some b, Some bs => Some (b ++ bs)
      | _, _ => None
      end
  end.

End Py.

(* ===================================================================== *)
(** ** hashlib.md5 (RFC 1321) *)
(* ===================================================================== *)

Module MD5.

Definition w32 (x : N) : N := x mod 2 ^ 32.
Definition add32 (x y : N) : N := w32 (x + y).
Definition not32 (x : N) : N := N.lxor (w32 x) 0xFFFFFFFF.
Definition rotl32 (x : N) (s : N) : N :=
  N.lor (w32 (N.shiftl x s)) (N.shiftr (w32 x) (32 - s)).

Definition S_table : list N :=
  [7; 12; 17; 22; 7; 12; 17; 22; 7; 12; 17; 22; 7; 12; 17; 22;
   5; 9; 14; 20; 5; 9; 14; 20; 5; 9; 14; 20; 5; 9; 14; 20;
   4; 11; 16; 23; 4; 11; 16; 23; 4; 11; 16; 23; 4; 11; 16; 23;
   6; 10; 15; 21; 6; 10; 15; 21; 6; 10; 15; 21; 6; 10; 15; 21].

Definition K_table : list N :=
  [0xd76aa478; 0xe8c7b756; 0x242070db; 0xc1bdceee;
   0xf57c0faf; 0x4787c62a; 0xa8304613; 0xfd469501;
   0x698098d8; 0x8b44f7af; 0xffff5bb1; 0x895cd7be;
   0x6b901122; 0xfd987193; 0xa679438e; 0x49b40821;
   0xf61e2562; 0xc040b340; 0x265e5a51; 0xe9b6c7aa;
   0xd62f105d; 0x02441453; 0xd8a1e681; 0xe7d3fbc8;
   0x21e1cde6; 0xc33707d6; 0xf4d50d87; 0x455a14ed;
   0xa9e3e905; 0xfcefa3f8; 0x676f02d9; 0x8d2a4c8a;
   0xfffa3942; 0x8771f681; 0x6d9d6122; 0xfde5380c;
   0xa4beea44; 0x4bdecfa9; 0xf6bb4b60; 0xbebfbc70;
   0x289b7ec6; 0xeaa127fa; 0xd4ef3085; 0x04881d05;
   0xd9d4d039; 0xe6db99e5; 0x1fa27cf8; 0xc4ac5665;
   0xf4292244; 0x432aff97; 0xab9423a7; 0xfc93a039;
   0x655b59c3; 0x8f0ccc92; 0xffeff47d; 0x85845dd1;
   0x6fa87e4f; 0xfe2ce6e0; 0xa3014314; 0x4e0811a1;
   0xf7537e82; 0xbd3af235; 0x2ad7d2bb; 0xeb86d391].

(** Little-endian bytes of a word, and back. *)
Fixpoint le_bytes (n : nat) (x : N) : list N :=
  match n with
  | O => []
  | S n' => (x mod 256) :: le_bytes n' (x / 256)
  end.

Fixpoint le_word (bs : list N) : N :=
  match bs with
  | [] => 0
  | b :: bs' => b + 256 * le_word bs'
  end.

(** Message padding: 0x80, zeros up to 56 mod 64, the bit length on
    eight bytes. *)
Definition pad (msg : list N) : list N :=
  let l := length msg in
  let z := ((55 + 64 - l mod 64) mod 64)%nat in
  msg ++ [0x80] ++ List.repeat 0 z
      ++ le_bytes 8 ((8 * N.of_nat l) mod 2 ^ 64).

(** Cut into groups of [n] elements. [fuel] bounds the number of groups. *)
Fixpoint chunks {A} (fuel n : nat) (l : list A) : list (list A) :=
  match fuel, l with
  | O, _ | _, [] => []
  | S fuel', _ => firstn n l :: chunks fuel' n (skipn n l)
  end.

Record state := St { sa : N; sb : N; sc : N; sd : N }.

Definition init : state :=
  St 0x67452301 0xefcdab89 0x98badcfe 0x10325476.

(** One of the 64 operations of a block. *)
Definition round (M : list N) (st : state) (i : nat) : state :=
  let '(St A B C D) := st in
  let '(F, g) :=
    if (i <? 16)%nat then
      (N.lor (N.land B C) (N.land (not32 B) D), i)
    else if (i <? 32)%nat then
      (N.lor (N.land D B) (N.land (not32 D) C), ((5 * i + 1) mod 16)%nat)
    else if (i <? 48)%nat then
      (N.lxor (N.lxor B C) D, ((3 * i + 5) mod 16)%nat)
    else
      (N.lxor C (N.lor B (not32 D)), ((7 * i) mod 16)%nat) in
  let F' := add32 (add32 (add32 F A) (nth i K_table 0)) (nth g M 0) in
  St D (add32 B (rotl32 F' (nth i S_table 0))) B C.

Definition block (st : state) (blk : list N) : state :=
  let M := List.map le_word (chunks 16 4 blk) in
  let '(St A B C D) := fold_left (round M) (seq 0 64) st in
  St (add32 (sa st) A) (add32 (sb st) B) (add32 (sc st) C) (add32 (sd st) D).

(** [hashlib.md5(msg).digest()] *)
Definition digest (msg : list N) : list N :=
  let p := pad msg in
  let '(St A B C D) := fold_left block (chunks (length p) 64 p) init in
  le_bytes 4 A ++ le_bytes 4 B ++ le_bytes 4 C ++ le_bytes 4 D.

Definition hexdigit (n : N) : N := if n <? 10 then 0x30 + n else 0x57 + n.

(** [hashlib.md5(msg).hexdigest()], as a str of 32 lower-case digits. *)
Definition hexdigest (msg : list N) : Py.str :=
  List.concat (List.map (fun b => [hexdigit (b / 16); hexdigit (b mod 16)])
                        (digest msg)).

End MD5.

Import Py.

(* ===================================================================== *)
(** ** Data model *)
(* ===================================================================== *)

(** A posting as [search_jobs_sync] builds it: always these seven keys. *)
Record Job := {
  title : str;
  company : str;
  location : str;
  job_url : str;
  description : str;
  date_posted : str;
  site : str;
}.

(** One row of the JobSpy frame: [str(row.get(col, ""))] per column. *)
Record Row := {
  row_title : str;
  row_company : str;
  row_location : str;
  row_job_url : str;
  row_description : str;
  row_date_posted : str;
  row_site : str;
}.

(** The dict stored under ["job_prefs"]. *)
Record Prefs := {
  pref_title : str;
  pref_location : str;
  pref_keywords : str;
  pref_remote : bool;
  pref_hour : Z;
  pref_minute : Z;
}.

(** user_data/{uid}_data.json; a key that is absent is [None]. *)
Record UserData := {
  lebenslauf : option str;
  muster : option str;
  job_prefs : option Prefs;
  job_alert_active : option bool;
}.

Definition no_data : UserData :=
  {| lebenslauf := None; muster := None; job_prefs := None;
     job_alert_active := None |}.

(** [context.user_data] of one user: the answers collected so far. *)
Record UserCtx := {
  ctx_setup_choice : option str;
  ctx_job_title : option str;
  ctx_job_location : option str;
  ctx_job_keywords : option str;
  ctx_job_remote : option bool;
}.

Definition no_ctx : UserCtx :=
  {| ctx_setup_choice := None; ctx_job_title := None;
     ctx_job_location := None; ctx_job_keywords := None;
     ctx_job_remote := None |}.

(** ConversationHandler states, [range(8)] in the source. *)
Inductive State :=
  | SETUP_CHOICE | SETUP_CV | SETUP_MUSTER
  | JOB_TITLE | JOB_LOCATION | JOB_KEYWORDS | JOB_REMOTE | JOB_TIME.

(** What a conversation callback returns. *)
Inductive Next :=
  | Goto (s : State)
  | END.

Inductive Exn :=
  | UnicodeEncodeError
  | ValueError
  | IndexError
  | KeyError
  | TelegramError (code : N)
  | JobSpyError (code : N)
  | APIError (msg : str)
  | DownloadError (code : N).

Inductive Res (A : Type) :=
  | Ok (a : A)
  | Raise (e : Exn).
Arguments Ok {A} a.
Arguments Raise {A} e.

(** What [scrape_jobs] can come back with. *)
Inductive ScrapeResult :=
  | ScrapeRaises (e : Exn)
  | ScrapeNone
  | ScrapeFrame (rows : list Row).

(** Message texts. The fixed notices are named; the texts whose length
    or content matter are carried. *)
Inductive Text :=
  | TNoJobs
  | TDigestHeader (count : nat)
  | TJobCard (i : nat) (job : Job)
  | TSearching
  | TNeedJobsetup
  | TSearchingNow
  | TAskTitle | TAskLocation | TAskKeywords | TAskRemote | TAskTime
  | TInvalidFormat
  | TPrefsSaved (prefs : Prefs)
  | TJobsetupCancelled
  | TSetupMenu | TSendCV | TSendMuster | TChoose123 | TSendFile
  | TProcessing | TCVSavedNext | TCVSaved | TMusterSaved | TCancelled
  | TNeedSetup
  | TStaleCache
  | TCreating (job_title job_company : str)
  | TError (e : Exn)
  | TLetter (full : str)
  | TCaption (job_title job_company : str).

(** Everything the bot does to the outside, in the order it happens. *)
Inductive Event :=
  | SendMessage (chat_id : Z) (text : Text) (reply_markup : option (str * str))
  | ReplyText (chat_id : Z) (text : Text)
  | EditText (chat_id : Z) (text : Text)
  | Delete (chat_id : Z)
  | Answer (chat_id : Z)
  | ReplyDocument (chat_id : Z) (document : bytes) (filename : str)
                  (caption : Text)
  | ScrapeJobs (search_term loc : str) (is_remote : bool)
  | MessagesCreate (cv sample stellenbeschreibung : str)
  | DownloadFile (file_id : str)
  | Sleep
  | LogInfo
  | LogScrapeError (e : Exn)
  | LogUserError (uid : Z) (e : Exn).

(** The collaborators. Each answer may depend on all earlier events. *)
Record Env := {
  DAILY_HOUR : Z;
  DAILY_MINUTE : Z;
  telegram : list Event -> Event -> option Exn;
  jobspy : list Event -> str -> str -> bool -> ScrapeResult;
  anthropic : list Event -> str -> str -> str -> Res str;
  telegram_file : list Event -> str -> Res str;
}.

Record World := {
  data_files : gmap Z UserData;
  job_files : gmap Z (gmap str Job);
  user_data : gmap Z UserCtx;
  trace : list Event;
}.

Definition set_data_files (f : gmap Z UserData) (w : World) : World :=
  {| data_files := f; job_files := job_files w;
     user_data := user_data w; trace := trace w |}.
Definition set_job_files (f : gmap Z (gmap str Job)) (w : World) : World :=
  {| data_files := data_files w; job_files := f;
     user_data := user_data w; trace := trace w |}.
Definition set_user_data (f : gmap Z UserCtx) (w : World) : World :=
  {| data_files := data_files w; job_files := job_files w;
     user_data := f; trace := trace w |}.
Definition record (ev : Event) (w : World) : World :=
  {| data_files := data_files w; job_files := job_files w;
     user_data := user_data w; trace := trace w ++ [ev] |}.

(** Inbound updates. *)
Inductive Message :=
  | MText (text : str)
  | MCommand (name : str)
  | MDocument (file_id : str).

Record Update := {
  effective_user : Z;
  chat : Z;
  message : Message;
}.

(** A button press: who pressed, the chat of the message that carries
    the button, and the payload. *)
Record CallbackQuery := {
  from_user : Z;
  query_chat : Z;
  query_data : str;
}.

(* ===================================================================== *)
(** ** The handler monad: state and exceptions *)
(* ===================================================================== *)

Definition M (A : Type) : Type := World -> Res A * World.

Definition ret {A} (a : A) : M A := fun w => (Ok a, w).

Definition bind {A B} (m : M A) (k : A -> M B) : M B :=
  fun w =>
    match m w with
    | (Ok a, w') => k a w'
    | (Raise e, w') => (Raise e, w')
    end.

Definition lift {A} (r : Res A) : M A := fun w => (r, w).

(** [try: body except Exception as e: handler(e)] *)
Definition try_except {A} (body : M A) (handler : Exn -> M A) : M A :=
  fun w =>
    match body w with
    | (Ok a, w') => (Ok a, w')
    | (Raise e, w') => handler e w'
    end.

Notation "'do' x <- m ; k" := (bind m (fun x => k))
  (at level 10, x name, m at level 100, k at level 200).

(** Python truthiness of [d.get(key)]. *)
Definition truthy_str (o : option str) : bool :=
  match o with
  | Some (_ :: _) => true
  | _ => false
  end.

Definition truthy_bool (o : option bool) : bool :=
  match o with
  | Some b => b
  | None => false
  end.

(* ===================================================================== *)
(** ** bot.py *)
(* ===================================================================== *)

Section Bot.

Variable env : Env.

(** *** Collaborator calls *)

(** A call into the Telegram transport: recorded, then it succeeds or
    raises as the environment decides. *)
Definition transport (ev : Event) : M unit :=
  fun w =>
    match telegram env (trace w) ev with
    | None => (Ok tt, record ev w)
    | Some e => (Raise e, record ev w)
    end.

Definition send_message (chat_id : Z) (text : Text)
    (reply_markup : option (str * str)) : M unit :=
  transport (SendMessage chat_id text reply_markup).
Definition reply_text (chat_id : Z) (text : Text) : M unit :=
  transport (ReplyText chat_id text).
Definition edit_text (chat_id : Z) (text : Text) : M unit :=
  transport (EditText chat_id text).
Definition delete (chat_id : Z) : M unit := transport (Delete chat_id).
Definition answer (chat_id : Z) : M unit := transport (Answer chat_id).
Definition reply_document (chat_id : Z) (document : bytes) (filename : str)
    (caption : Text) : M unit :=
  transport (ReplyDocument chat_id document filename caption).

(** [logger.info] / [logger.error]: recorded, never raise. *)
Definition logger (ev : Event) : M unit := fun w => (Ok tt, record ev w).

(** [asyncio.sleep(0.3)] *)
Definition sleep : M unit := fun w => (Ok tt, record Sleep w).

(** [download_telegram_file]: fetches and decodes the file; all of it is
    outside the bot. *)
Definition download_telegram_file (file_id : str) : M str :=
  fun w => (telegram_file env (trace w) file_id, record (DownloadFile file_id) w).

(** *** Persistence *)

Definition load_user_data (user_id : Z) : M UserData :=
  fun w => (Ok (default no_data (data_files w !! user_id)), w).

Definition save_user_data (user_id : Z) (data : UserData) : M unit :=
  fun w => (Ok tt, set_data_files (<[user_id := data]> (data_files w)) w).

Definition alert_user (d : UserData) : bool :=
  match job_prefs d with
  | Some _ => truthy_bool (job_alert_active d)
  | None => false
  end.

(** All user ids with preferences and an active alert, in directory
    order (here: the order of the map's listing). *)
Definition load_all_users : M (list Z) :=
  fun w =>
    (Ok (List.map fst
           (List.filter (fun f => alert_user (snd f))
                        (map_to_list (data_files w)))), w).

Definition job_id (job : Job) : Res str :=
  match encode (title job ++ company job ++ job_url job) with
  | Some raw => Ok (prefix 12 (MD5.hexdigest raw))
  | None => Raise UnicodeEncodeError
  end.

(** [{job_id(j): j for j in jobs}], built left to right. *)
Fixpoint job_dict (jobs : list Job) (cache : gmap str Job)
    : Res (gmap str Job) :=
  match jobs with
  | [] => Ok cache
  | j :: rest =>
      match job_id j with
      | Ok jid => job_dict rest (<[jid := j]> cache)
      | Raise e => Raise e
      end
  end.

Definition save_job_cache (user_id : Z) (jobs : list Job) : M unit :=
  do cache <- lift (job_dict jobs ∅);
  fun w => (Ok tt, set_job_files (<[user_id := cache]> (job_files w)) w).

Definition load_job_from_cache (user_id : Z) (jid : str) : M (option Job) :=
  fun w =>
    match job_files w !! user_id with
    | None => (Ok None, w)
    | Some cache => (Ok (cache !! jid), w)
    end.

(** *** Job search *)

Definition row_job (row : Row) : Job :=
  {| title := strip (row_title row);
     company := strip (row_company row);
     location := strip (row_location row);
     job_url := strip (row_job_url row);
     description := strip (prefix 4000 (row_description row));
     date_posted := strip (row_date_posted row);
     site := strip (row_site row) |}.

(** The loop over [df.iterrows()]: append, then leave once ten are in. *)
Fixpoint collect_rows (rows : list Row) (jobs : list Job) : list Job :=
  match rows with
  | [] => jobs
  | row :: rest =>
      let jobs' := jobs ++ [row_job row] in
      if (10 <=? length jobs')%nat then jobs' else collect_rows rest jobs'
  end.

(** The arguments handed to [scrape_jobs]: the query, the location and
    the remote flag. [prefs] is [None] for the empty dict. *)
Definition search_args (prefs : option Prefs) : str * str * bool :=
  let search_term := from_option pref_title (lit "Software Engineer") prefs in
  let loc := from_option pref_location (lit "Deutschland") prefs in
  let keywords := from_option pref_keywords [] prefs in
  let is_remote := from_option pref_remote false prefs in
  let full_query := strip (search_term ++ lit " " ++ keywords) in
  (full_query, loc, is_remote).

Definition search_jobs_sync (prefs : option Prefs) : M (list Job) :=
  let '(full_query, loc, is_remote) := search_args prefs in
  fun w =>
    let w1 := record (ScrapeJobs full_query loc is_remote) w in
    match jobspy env (trace w) full_query loc is_remote with
    | ScrapeRaises e => (Ok [], record (LogScrapeError e) w1)
    | ScrapeNone => (Ok [], w1)
    | ScrapeFrame [] => (Ok [], w1)
    | ScrapeFrame rows => (Ok (collect_rows rows []), w1)
    end.

Definition search_jobs (prefs : option Prefs) : M (list Job) :=
  search_jobs_sync prefs.

(** *** Sending a batch *)

(** [str(n)] for an int. *)
Definition str_of_Z (n : Z) : str :=
  lit (DecimalString.NilZero.string_of_int (Z.to_int n)).

Definition callback_data (user_id : Z) (jid : str) : str :=
  lit "anschreiben:" ++ str_of_Z user_id ++ lit ":" ++ jid.

(** [for i, job in enumerate(jobs, 1)] *)
Fixpoint send_cards (user_id : Z) (jobs : list Job) (i : nat) : M unit :=
  match jobs with
  | [] => ret tt
  | job :: rest =>
      do jid <- lift (job_id job);
      do _ <- send_message user_id (TJobCard i job)
                (Some (callback_data user_id jid, job_url job));
      do _ <- sleep;
      send_cards user_id rest (S i)
  end.

Definition send_jobs_to_user (user_id : Z) (jobs : list Job) : M unit :=
  match jobs with
  | [] => send_message user_id TNoJobs None
  | _ =>
      do _ <- save_job_cache user_id jobs;
      do _ <- send_message user_id (TDigestHeader (length jobs)) None;
      send_cards user_id jobs 1
  end.

(** *** The daily run *)

(** The body of the [try] for one user. *)
Definition daily_user (uid : Z) : M unit :=
  do data <- load_user_data uid;
  let prefs := job_prefs data in
  do _ <- send_message uid TSearching None;
  do jobs <- search_jobs prefs;
  send_jobs_to_user uid jobs.

(** One turn of the loop: the [try] with its [except Exception]. *)
Definition guarded (uid : Z) : M unit :=
  try_except (daily_user uid) (fun e => logger (LogUserError uid e)).

Fixpoint daily_loop (user_ids : list Z) : M unit :=
  match user_ids with
  | [] => ret tt
  | uid :: rest =>
      do _ <- guarded uid;
      daily_loop rest
  end.

Definition daily_job_search : M unit :=
  do _ <- logger LogInfo;
  do user_ids <- load_all_users;
  daily_loop user_ids.

(** [/suchenow] *)
Definition cmd_suchenow (update : Update) : M unit :=
  let uid := effective_user update in
  do data <- load_user_data uid;
  match job_prefs data with
  | None => reply_text (chat update) TNeedJobsetup
  | Some prefs =>
      do _ <- reply_text (chat update) TSearchingNow;
      do jobs <- search_jobs (Some prefs);
      do _ <- delete (chat update);
      send_jobs_to_user uid jobs
  end.

(** *** The /jobsetup conversation *)

Definition get_ctx (uid : Z) : M UserCtx :=
  fun w => (Ok (default no_ctx (user_data w !! uid)), w).

Definition put_ctx (uid : Z) (c : UserCtx) : M unit :=
  fun w => (Ok tt, set_user_data (<[uid := c]> (user_data w)) w).

Definition cmd_jobsetup (update : Update) : M Next :=
  do _ <- reply_text (chat update) TAskTitle;
  ret (Goto JOB_TITLE).

Definition jobsetup_title (update : Update) (text : str) : M Next :=
  do c <- get_ctx (effective_user update);
  do _ <- put_ctx (effective_user update)
            {| ctx_setup_choice := ctx_setup_choice c;
               ctx_job_title := Some (strip text);
               ctx_job_location := ctx_job_location c;
               ctx_job_keywords := ctx_job_keywords c;
               ctx_job_remote := ctx_job_remote c |};
  do _ <- reply_text (chat update) TAskLocation;
  ret (Goto JOB_LOCATION).

Definition jobsetup_location (update : Update) (text : str) : M Next :=
  do c <- get_ctx (effective_user update);
  do _ <- put_ctx (effective_user update)
            {| ctx_setup_choice := ctx_setup_choice c;
               ctx_job_title := ctx_job_title c;
               ctx_job_location := Some (strip text);
               ctx_job_keywords := ctx_job_keywords c;
               ctx_job_remote := ctx_job_remote c |};
  do _ <- reply_text (chat update) TAskKeywords;
  ret (Goto JOB_KEYWORDS).

Definition jobsetup_keywords (update : Update) (text : str) : M Next :=
  let raw := strip text in
  do c <- get_ctx (effective_user update);
  do _ <- put_ctx (effective_user update)
            {| ctx_setup_choice := ctx_setup_choice c;
               ctx_job_title := ctx_job_title c;
               ctx_job_location := ctx_job_location c;
               ctx_job_keywords :=
                 Some (if decide (lower raw = lit "skip") then [] else raw);
               ctx_job_remote := ctx_job_remote c |};
  do _ <- reply_text (chat update) TAskRemote;
  ret (Goto JOB_REMOTE).

Definition jobsetup_remote (update : Update) (text : str) : M Next :=
  let answer := lower (strip text) in
  do c <- get_ctx (effective_user update);
  do _ <- put_ctx (effective_user update)
            {| ctx_setup_choice := ctx_setup_choice c;
               ctx_job_title := ctx_job_title c;
               ctx_job_location := ctx_job_location c;
               ctx_job_keywords := ctx_job_keywords c;
               ctx_job_remote :=
                 Some (bool_decide
                         (answer ∈ [lit "ja"; lit "yes"; lit "j"; lit "y"])) |};
  do _ <- reply_text (chat update) TAskTime;
  ret (Goto JOB_TIME).

(** The body of the [try] in [jobsetup_time]: split at the colons, read
    the first part as the hour and the second, when there is one, as
    the minute. *)
Definition parse_time (raw : str) : Res (Z * Z) :=
  let parts := split 0x3A raw in
  match int (nth 0 parts []) with
  | None => Raise ValueError
  | Some hour =>
      if (1 <? length parts)%nat then
        match int (nth 1 parts []) with
        | None => Raise ValueError
        | Some minute => Ok (hour, minute)
        end
      else Ok (hour, 0%Z)
  end.

Definition jobsetup_time (update : Update) (text : str) : M Next :=
  let raw := lower (strip text) in
  let parsed :=
    if decide (raw = lit "ok") then Ok (DAILY_HOUR env, DAILY_MINUTE env)
    else parse_time raw in
  match parsed with
  | Raise _ =>
      do _ <- reply_text (chat update) TInvalidFormat;
      ret (Goto JOB_TIME)
  | Ok (hour, minute) =>
      let uid := effective_user update in
      do data <- load_user_data uid;
      do c <- get_ctx uid;
      do job_title <- lift (from_option Ok (Raise KeyError) (ctx_job_title c));
      do job_location <-
        lift (from_option Ok (Raise KeyError) (ctx_job_location c));
      let prefs :=
        {| pref_title := job_title;
           pref_location := job_location;
           pref_keywords := default [] (ctx_job_keywords c);
           pref_remote := default false (ctx_job_remote c);
           pref_hour := hour;
           pref_minute := minute |} in
      do _ <- save_user_data uid
                {| lebenslauf := lebenslauf data; muster := muster data;
                   job_prefs := Some prefs;
                   job_alert_active := job_alert_active data |};
      do _ <- reply_text (chat update) (TPrefsSaved prefs);
      ret END
  end.

Definition jobsetup_cancel (update : Update) : M Next :=
  do _ <- reply_text (chat update) TJobsetupCancelled;
  ret END.

(** *** The /setup conversation *)

Definition cmd_setup (update : Update) : M Next :=
  do _ <- reply_text (chat update) TSetupMenu;
  ret (Goto SETUP_CHOICE).

Definition setup_choice (update : Update) (text : str) : M Next :=
  let choice := strip text in
  do c <- get_ctx (effective_user update);
  do _ <- put_ctx (effective_user update)
            {| ctx_setup_choice := Some choice;
               ctx_job_title := ctx_job_title c;
               ctx_job_location := ctx_job_location c;
               ctx_job_keywords := ctx_job_keywords c;
               ctx_job_remote := ctx_job_remote c |};
  if bool_decide (choice ∈ [lit "1"; lit "3"]) then
    do _ <- reply_text (chat update) TSendCV;
    ret (Goto SETUP_CV)
  else if decide (choice = lit "2") then
    do _ <- reply_text (chat update) TSendMuster;
    ret (Goto SETUP_MUSTER)
  else
    do _ <- reply_text (chat update) TChoose123;
    ret (Goto SETUP_CHOICE).

Definition setup_cv (update : Update) : M Next :=
  match message update with
  | MDocument file_id =>
      do _ <- reply_text (chat update) TProcessing;
      do text <- download_telegram_file file_id;
      do data <- load_user_data (effective_user update);
      do _ <- save_user_data (effective_user update)
                {| lebenslauf := Some text; muster := muster data;
                   job_prefs := job_prefs data;
                   job_alert_active := job_alert_active data |};
      do c <- get_ctx (effective_user update);
      if decide (ctx_setup_choice c = Some (lit "3")) then
        do _ <- reply_text (chat update) TCVSavedNext;
        ret (Goto SETUP_MUSTER)
      else
        do _ <- reply_text (chat update) TCVSaved;
        ret END
  | _ =>
      do _ <- reply_text (chat update) TSendFile;
      ret (Goto SETUP_CV)
  end.

Definition setup_muster (update : Update) : M Next :=
  match message update with
  | MDocument file_id =>
      do _ <- reply_text (chat update) TProcessing;
      do text <- download_telegram_file file_id;
      do data <- load_user_data (effective_user update);
      do _ <- save_user_data (effective_user update)
                {| lebenslauf := lebenslauf data; muster := Some text;
                   job_prefs := job_prefs data;
                   job_alert_active := job_alert_active data |};
      do _ <- reply_text (chat update) TMusterSaved;
      ret END
  | _ =>
      do _ <- reply_text (chat update) TSendFile;
      ret (Goto SETUP_MUSTER)
  end.

Definition setup_cancel (update : Update) : M Next :=
  do _ <- reply_text (chat update) TCancelled;
  ret END.

(** *** The two ConversationHandlers of [main]

    In state [st] the update goes to the state's handler when its
    filter accepts the message, else to the fallback; [None] when
    neither takes it (the conversation stays where it is). *)

Definition is_abbrechen (m : Message) : bool :=
  match m with
  | MCommand name => bool_decide (name = lit "abbrechen")
  | _ => false
  end.

Definition doc_setup (st : State) (update : Update) : option (M Next) :=
  match st, message update with
  | SETUP_CHOICE, MText text => Some (setup_choice update text)
  | SETUP_CV, MDocument _ => Some (setup_cv update)
  | SETUP_MUSTER, MDocument _ => Some (setup_muster update)
  | (SETUP_CHOICE | SETUP_CV | SETUP_MUSTER), m =>
      if is_abbrechen m then Some (setup_cancel update) else None
  | _, _ => None
  end.

Definition job_setup (st : State) (update : Update) : option (M Next) :=
  match st, message update with
  | JOB_TITLE, MText text => Some (jobsetup_title update text)
  | JOB_LOCATION, MText text => Some (jobsetup_location update text)
  | JOB_KEYWORDS, MText text => Some (jobsetup_keywords update text)
  | JOB_REMOTE, MText text => Some (jobsetup_remote update text)
  | JOB_TIME, MText text => Some (jobsetup_time update text)
  | (JOB_TITLE | JOB_LOCATION | JOB_KEYWORDS | JOB_REMOTE | JOB_TIME), m =>
      if is_abbrechen m then Some (jobsetup_cancel update) else None
  | _, _ => None
  end.

(** *** The cover-letter callback *)

(** [generate_anschreiben]: the prompt is fixed text around the three
    arguments; the answer is the provider's. *)
Definition generate_anschreiben (cv sample stellenbeschreibung : str) : M str :=
  fun w =>
    (anthropic env (trace w) cv sample stellenbeschreibung,
     record (MessagesCreate cv sample stellenbeschreibung) w).

(** [parts = query.data.split(":")], [int(parts[1])], [parts[2]]. *)
Definition callback_parts (data : str) : Res (Z * str) :=
  let parts := split 0x3A data in
  match parts !! 1%nat with
  | None => Raise IndexError
  | Some p1 =>
      match int p1 with
      | None => Raise ValueError
      | Some user_id =>
          match parts !! 2%nat with
          | None => Raise IndexError
          | Some jid => Ok (user_id, jid)
          end
      end
  end.

Definition stellentext (job : Job) : str :=
  lit "Stelle: " ++ title job ++ [0x0A]
  ++ lit "Unternehmen: " ++ company job ++ [0x0A]
  ++ lit "Ort: " ++ location job ++ [0x0A; 0x0A]
  ++ lit "Beschreibung:" ++ [0x0A] ++ description job.

(** The header of the inline letter: a page emoji, the title line with
    an en dash, thirty box-drawing dashes, a blank line. *)
Definition letter_header (job : Job) : str :=
  [0x1F4C4] ++ lit " *Anschreiben " ++ [0x2013] ++ lit " " ++ title job
  ++ lit " @ " ++ company job ++ lit "*" ++ [0x0A]
  ++ times [0x2500] 30 ++ [0x0A; 0x0A].

Definition letter_filename (job : Job) : str :=
  lit "Anschreiben_" ++ replace 0x20 0x5F (company job) ++ lit ".txt".

Definition callback_anschreiben (query : CallbackQuery) : M unit :=
  let reply := query_chat query in
  do _ <- answer reply;
  do parts <- lift (callback_parts (query_data query));
  let '(user_id, jid) := parts in
  do data <- load_user_data user_id;
  if negb (truthy_str (lebenslauf data)) || negb (truthy_str (muster data))
  then reply_text reply TNeedSetup
  else
    do job <- load_job_from_cache user_id jid;
    match job with
    | None => reply_text reply TStaleCache
    | Some job =>
        do _ <- reply_text reply (TCreating (title job) (company job));
        let cv := default [] (lebenslauf data) in
        let sample := default [] (muster data) in
        do generated <-
          try_except
            (do text <- generate_anschreiben cv sample (stellentext job);
             ret (Some text))
            (fun e => do _ <- edit_text reply (TError e); ret None);
        match generated with
        | None => ret tt
        | Some anschreiben =>
            do _ <- delete reply;
            let full := letter_header job ++ anschreiben in
            if (length full <=? 4096)%nat then
              reply_text reply (TLetter full)
            else
              do document <- lift (from_option Ok (Raise UnicodeEncodeError)
                                     (encode anschreiben));
              reply_document reply document (letter_filename job)
                (TCaption (title job) (company job))
        end
    end.

End Bot.

(** A conversation as the ConversationHandler drives it: each update
    goes to the handler of the current state; an update no handler
    takes leaves the state; END closes the conversation. *)
Fixpoint converse (handler : State -> Update -> option (M Next))
    (st : State) (updates : list Update) : M Next :=
  match updates with
  | [] => ret (Goto st)
  | update :: rest =>
      match handler st update with
      | None => converse handler st rest
      | Some h =>
          do next <- h;
          match next with
          | END => ret END
          | Goto st' => converse handler st' rest
          end
      end
  end.

(* ===================================================================== *)
(** ** Concrete inputs *)
(* ===================================================================== *)

Module Sample.

Definition posting (t c u d : string) : Job :=
  {| title := lit t; company := lit c; location := lit "Berlin";
     job_url := lit u; description := lit d;
     date_posted := lit "2024-05-02"; site := lit "indeed" |}.

Definition data_bricks : Job :=
  posting "Data" "Bricks" "https://jobs.example/1" "Spark".
Definition databricks : Job :=
  posting "DataBricks" "" "https://jobs.example/1" "Spark".
Definition analyst : Job :=
  posting "Data Analyst" "ACME" "https://jobs.example/2" "SQL, Python".
Definition analyst_refetched : Job :=
  {| title := title analyst; company := company analyst;
     location := location analyst; job_url := job_url analyst;
     description := lit "SQL and Python"; date_posted := lit "2024-05-03";
     site := site analyst |}.

Definition row (n : N) : Row :=
  {| row_title := lit " Engineer " ++ [0x30 + n / 10; 0x30 + n mod 10];
     row_company := lit "ACME "; row_location := lit "Berlin";
     row_job_url := lit "https://jobs.example/" ++ [0x30 + n / 10; 0x30 + n mod 10];
     row_description := lit "text"; row_date_posted := lit "2024-05-02";
     row_site := lit "linkedin" |}.

Definition fifteen_rows : list Row :=
  List.map (fun i => row (N.of_nat i)) (seq 1 15).

(** Every collaborator answers; the frame has fifteen rows. *)
Definition env_ok : Env :=
  {| DAILY_HOUR := 6; DAILY_MINUTE := 0;
     telegram := fun _ _ => None;
     jobspy := fun _ _ _ _ => ScrapeFrame fifteen_rows;
     anthropic := fun _ _ _ _ => Ok (lit "Sehr geehrte Damen und Herren");
     telegram_file := fun _ _ => Ok (lit "Lebenslauf") |}.

Definition says (uid : Z) (t : string) : Update :=
  {| effective_user := uid; chat := uid; message := MText (lit t) |}.
Definition commands (uid : Z) (name : string) : Update :=
  {| effective_user := uid; chat := uid; message := MCommand (lit name) |}.

Definition nothing : World :=
  {| data_files := ∅; job_files := ∅; user_data := ∅; trace := [] |}.

(** User 7 has answered the first four questions of /jobsetup. *)
Definition asked : World :=
  snd (converse (job_setup env_ok) JOB_TITLE
         (List.map (says 7) ["Data Analyst"; "Berlin"; "skip"; "nein"]%string)
         nothing).

(** The "searching" notice is refused (the user blocked the bot);
    every other call goes through. *)
Definition env_notice_refused : Env :=
  {| DAILY_HOUR := 6; DAILY_MINUTE := 0;
     telegram := fun _ ev =>
       match ev with
       | SendMessage 7%Z TSearching _ => Some (TelegramError 403)
       | _ => None
       end;
     jobspy := fun _ _ _ _ => ScrapeFrame fifteen_rows;
     anthropic := fun _ _ _ _ => Ok (lit "Sehr geehrte Damen und Herren");
     telegram_file := fun _ _ => Ok (lit "Lebenslauf") |}.

Definition subscriber : UserData :=
  {| lebenslauf := Some (lit "Lebenslauf"); muster := Some (lit "Muster");
     job_prefs := Some {| pref_title := lit "Data Analyst";
                          pref_location := lit "Berlin";
                          pref_keywords := []; pref_remote := false;
                          pref_hour := 6; pref_minute := 0 |};
     job_alert_active := Some true |}.

(** Users 7 and 9 have preferences and an active alert. *)
Definition two_subscribers : World :=
  {| data_files := <[7%Z := subscriber]> (<[9%Z := subscriber]> ∅);
     job_files := ∅; user_data := ∅; trace := [] |}.

Definition one_subscriber : World :=
  {| data_files := <[7%Z := subscriber]> ∅;
     job_files := ∅; user_data := ∅; trace := [] |}.

Definition press_foreign : CallbackQuery :=
  {| from_user := 666; query_chat := 7;
     query_data := callback_data 7 (lit "a8585d9290c3") |}.

(** User 7 has both documents and [analyst] in the cache. *)
Definition served : World :=
  snd (send_jobs_to_user env_ok 7 [analyst] one_subscriber).

(** User 8 has a CV, no sample, and a cache. *)
Definition no_sample : World :=
  {| data_files :=
       <[8%Z := {| lebenslauf := Some (lit "Lebenslauf"); muster := None;
                   job_prefs := None; job_alert_active := None |}]> ∅;
     job_files := <[8%Z := {[ lit "a8585d9290c3" := analyst ]}]> ∅;
     user_data := ∅; trace := [] |}.
Definition press_8 : CallbackQuery :=
  {| from_user := 8; query_chat := 8;
     query_data := callback_data 8 (lit "a8585d9290c3") |}.


Definition press_big : CallbackQuery :=
  {| from_user := 7; query_chat := 7;
     query_data := callback_data 7 (lit "880e55613bad") |}.

End Sample.

(* ===================================================================== *)
(** ** Properties *)
(* ===================================================================== *)

(** *** The primitives against known values *)

Example md5_empty :
  MD5.hexdigest [] = lit "d41d8cd98f00b204e9800998ecf8427e".
Proof. vm_compute. reflexivity. Qed.

Example md5_abc :
  MD5.hexdigest (lit "abc") = lit "900150983cd24fb0d6963f7d28e17f72".
Proof. vm_compute. reflexivity. Qed.

(** 55, 56 and 64 bytes: around the padding boundary and one full block. *)
Example md5_a55 :
  MD5.hexdigest (List.repeat 0x61 55) = lit "ef1772b6dff9a122358552954ad0df65".
Proof. vm_compute. reflexivity. Qed.

Example md5_a56 :
  MD5.hexdigest (List.repeat 0x61 56) = lit "3b0c8ac703f828b04c6c197006d17218".
Proof. vm_compute. reflexivity. Qed.

Example md5_a64 :
  MD5.hexdigest (List.repeat 0x61 64) = lit "014842d480b571495a4a0363793f7367".
Proof. vm_compute. reflexivity. Qed.

Example encode_sample :
  encode [0xE4; 0x20AC; 0x1F4C4]
  = Some [195; 164; 226; 130; 172; 240; 159; 147; 132].
Proof. reflexivity. Qed.

Example encode_surrogate : encode [0x41; 0xD800] = None.
Proof. reflexivity. Qed.

Example int_samples :
  (int (lit " +1_0 "), int (lit "007"), int (lit "-12"), int (lit "1__0"),
   int (lit "1_"), int (lit "- 5"), int (lit ""), int (lit "0x10"))
  = (Some 10, Some 7, Some (-12), None, None, None, None, None)%Z.
Proof. reflexivity. Qed.

Example split_sample :
  split 0x3A (lit "a::b:") = [lit "a"; []; lit "b"; []].
Proof. reflexivity. Qed.

(** *** UTF-8 loses nothing *)

Lemma land_low6 (c : N) : N.land c 0x3F = c mod 64.
Proof. change 0x3F with (N.ones 6). rewrite N.land_ones. reflexivity. Qed.

Lemma utf8_digits (c : N) :
  c = 64 * (c / 64) + c mod 64
  /\ c / 64 = 64 * (c / 4096) + (c / 64) mod 64
  /\ c / 4096 = 64 * (c / 262144) + (c / 4096) mod 64.
Proof.
  split; [apply N.div_mod; discriminate |]. split.
  - rewrite (N.div_mod (c / 64) 64) at 1 by discriminate.
    rewrite N.Div0.div_div. reflexivity.
  - rewrite (N.div_mod (c / 4096) 64) at 1 by discriminate.
    rewrite N.Div0.div_div. reflexivity.
Qed.

Ltac forget_divs :=
  repeat match goal with
         | H : context [?a / ?b] |- _ =>
             let q := fresh "q" in
             let Hq := fresh in remember (a / b) as q eqn:Hq; clear Hq
         | H : context [?a mod ?b] |- _ =>
             let m := fresh "m" in
             let Hm := fresh in remember (a mod b) as m eqn:Hm; clear Hm
         end.

Ltac bools :=
  repeat match goal with
         | H : (_ <? _) = true |- _ => apply N.ltb_lt in H
         | H : (_ <? _) = false |- _ => apply N.ltb_ge in H
         | H : (_ && _)%bool = true |- _ => apply andb_true_iff in H as [? ?]
         | H : (_ && _)%bool = false |- _ => apply andb_false_iff in H
         | H : (_ <=? _) = true |- _ => apply N.leb_le in H
         | H : (_ <=? _) = false |- _ => apply N.leb_gt in H
         end.

Ltac encode1_cases H :=
  repeat match type of H with
         | context [if ?c then _ else _] => destruct c eqn:?
         end; try discriminate H; injection H as <-.

(** The encoding of a code point is recognised at the head of a byte
    sequence: the first byte tells the length, the bytes the value. *)
Lemma encode1_prefix (c c' : N) (b b' r r' : bytes) :
  encode1 c = Some b -> encode1 c' = Some b' -> b ++ r = b' ++ r' ->
  c = c' /\ r = r'.
Proof.
  unfold encode1. rewrite !land_low6, !N.shiftr_div_pow2.
  change (2 ^ 6) with 64. change (2 ^ 12) with 4096.
  change (2 ^ 18) with 262144.
  intros H H' E.
  encode1_cases H; encode1_cases H';
    simpl in E; injection E; intros; bools; split; try assumption;
    pose proof (utf8_digits c); pose proof (utf8_digits c');
    forget_divs; lia.
Qed.

Lemma encode1_nonempty (c : N) : encode1 c <> Some [].
Proof. unfold encode1. intros H. encode1_cases H. Qed.

Lemma encode_injective (s s' : str) (d : bytes) :
  encode s = Some d -> encode s' = Some d -> s = s'.
Proof.
  revert s' d. induction s as [| c s IH]; intros [| c' s'] d H H'; simpl in *.
  - reflexivity.
  - injection H as <-.
    destruct (encode1 c') as [b' |] eqn:E1; [| discriminate].
    destruct (encode s'); [| discriminate]. injection H' as H'.
    apply app_eq_nil in H' as [-> _]. destruct (encode1_nonempty _ E1).
  - injection H' as <-.
    destruct (encode1 c) as [b |] eqn:E1; [| discriminate].
    destruct (encode s); [| discriminate]. injection H as H.
    apply app_eq_nil in H as [-> _]. destruct (encode1_nonempty _ E1).
  - destruct (encode1 c) as [b |] eqn:E1; [| discriminate].
    destruct (encode s) as [bs |] eqn:E2; [| discriminate].
    destruct (encode1 c') as [b' |] eqn:E1'; [| discriminate].
    destruct (encode s') as [bs' |] eqn:E2'; [| discriminate].
    injection H as <-. injection H' as H'.
    destruct (encode1_prefix c c' b b' bs bs' E1 E1' (eq_sym H')) as [-> ->].
    f_equal. apply (IH s' bs'); [reflexivity | exact E2'].
Qed.

(** *** Stepping through a handler *)

Lemma bind_ok {A B} (m : M A) (k : A -> M B) (w : World) (a : A)
    (w' : World) :
  m w = (Ok a, w') -> bind m k w = k a w'.
Proof. intros H. unfold bind. rewrite H. reflexivity. Qed.

Lemma transport_ok env ev w :
  telegram env (trace w) ev = None ->
  transport env ev w = (Ok tt, record ev w).
Proof. intros H. unfold transport. rewrite H. reflexivity. Qed.

(** *** Item identity *)

Lemma job_id_of_raw (a b : Job) :
  title a ++ company a ++ job_url a = title b ++ company b ++ job_url b ->
  job_id a = job_id b.
Proof. unfold job_id. intros ->. reflexivity. Qed.

(** C1 (as amended). Postings that agree on title, company and url have
    the same id, whatever their description, date, location or site. *)
Theorem job_id_deterministic (a b : Job) :
  title a = title b -> company a = company b -> job_url a = job_url b ->
  job_id a = job_id b.
Proof.
  intros Ht Hc Hu. apply job_id_of_raw. rewrite Ht, Hc, Hu. reflexivity.
Qed.

Lemma job_id_deterministic_witness :
  description Sample.analyst <> description Sample.analyst_refetched /\
  job_id Sample.analyst = job_id Sample.analyst_refetched.
Proof.
  split; [discriminate |].
  apply (job_id_deterministic Sample.analyst Sample.analyst_refetched);
    reflexivity.
Defined.

(** C1, the converse fails: the three fields are concatenated without a
    separator before hashing, so "Data" at "Bricks" and "DataBricks" at
    no company get the same id. *)
Lemma job_id_collision :
  job_id Sample.data_bricks = Ok (lit "9efd13ed7620") /\
  job_id Sample.databricks = Ok (lit "9efd13ed7620") /\
  (title Sample.data_bricks, company Sample.data_bricks,
   job_url Sample.data_bricks)
  <> (title Sample.databricks, company Sample.databricks,
      job_url Sample.databricks).
Proof.
  split; [vm_compute; reflexivity |].
  split; [vm_compute; reflexivity |].
  intros H. inversion H.
Qed.

Example job_id_analyst : job_id Sample.analyst = Ok (lit "a8585d9290c3").
Proof. vm_compute. reflexivity. Qed.

(** *** Truncation of the search result *)

Lemma collect_rows_take (rows : list Row) (jobs : list Job) :
  (length jobs < 10)%nat ->
  collect_rows rows jobs
  = jobs ++ List.map row_job (firstn (10 - length jobs) rows).
Proof.
  revert jobs. induction rows as [| r rows IH]; intros jobs Hlen.
  - rewrite firstn_nil. simpl. rewrite app_nil_r. reflexivity.
  - change (collect_rows (r :: rows) jobs)
      with (if (10 <=? length (jobs ++ [row_job r]))%nat
            then jobs ++ [row_job r]
            else collect_rows rows (jobs ++ [row_job r])).
    assert (Hl : length (jobs ++ [row_job r]) = S (length jobs))
      by (rewrite length_app; simpl; lia).
    rewrite Hl.
    destruct (Nat.leb_spec 10 (S (length jobs))) as [Hge | Hlt].
    + replace (10 - length jobs)%nat with 1%nat by lia. reflexivity.
    + rewrite IH by lia. rewrite Hl.
      replace (10 - length jobs)%nat with (S (10 - S (length jobs))) by lia.
      simpl. rewrite <- app_assoc. reflexivity.
Qed.

(** *** What a handler leaves alone

    [keeps f m]: running [m] does not change the component [f] of the
    world. Collaborator calls only extend the trace. *)

Section Frame.

Context {X : Type} (f : World -> X).
Hypothesis f_record : forall ev w, f (record ev w) = f w.

Definition keeps {A} (m : M A) : Prop := forall w, f (snd (m w)) = f w.

Lemma keeps_ret {A} (a : A) : keeps (ret a).
Proof. intros w. reflexivity. Qed.

Lemma keeps_lift {A} (r : Res A) : keeps (lift r).
Proof. intros w. reflexivity. Qed.

Lemma keeps_bind {A B} (m : M A) (k : A -> M B) :
  keeps m -> (forall a, keeps (k a)) -> keeps (bind m k).
Proof.
  intros Hm Hk w. unfold bind. specialize (Hm w).
  destruct (m w) as [[a | e] w']; simpl in *.
  - rewrite Hk. exact Hm.
  - exact Hm.
Qed.

Lemma keeps_try_except {A} (m : M A) (h : Exn -> M A) :
  keeps m -> (forall e, keeps (h e)) -> keeps (try_except m h).
Proof.
  intros Hm Hh w. unfold try_except. specialize (Hm w).
  destruct (m w) as [[a | e] w']; simpl in *.
  - exact Hm.
  - rewrite Hh. exact Hm.
Qed.

Lemma keeps_transport env ev : keeps (transport env ev).
Proof.
  intros w. unfold transport.
  destruct (telegram env (trace w) ev); simpl; apply f_record.
Qed.

Lemma keeps_logger ev : keeps (logger ev).
Proof. intros w. apply f_record. Qed.

Lemma keeps_sleep : keeps sleep.
Proof. intros w. apply f_record. Qed.

Lemma keeps_download env file_id : keeps (download_telegram_file env file_id).
Proof. intros w. apply f_record. Qed.

Lemma keeps_generate env a b c : keeps (generate_anschreiben env a b c).
Proof. intros w. apply f_record. Qed.

Lemma keeps_search env prefs : keeps (search_jobs_sync env prefs).
Proof.
  intros w. unfold search_jobs_sync.
  destruct (search_args prefs) as [[q l] r].
  destruct (jobspy env (trace w) q l r) as [e | | [| r0 rows]]; simpl;
    rewrite ?f_record; reflexivity.
Qed.

Lemma keeps_send_cards env uid jobs i : keeps (send_cards env uid jobs i).
Proof.
  revert i. induction jobs as [| j jobs IH]; intros i; simpl.
  - apply keeps_ret.
  - apply keeps_bind; [apply keeps_lift | intros jid].
    apply keeps_bind; [apply keeps_transport | intros _].
    apply keeps_bind; [apply keeps_sleep | intros _]. apply IH.
Qed.

End Frame.

Lemma data_files_record ev w : data_files (record ev w) = data_files w.
Proof. reflexivity. Qed.
Lemma job_files_record ev w : job_files (record ev w) = job_files w.
Proof. reflexivity. Qed.
Lemma user_data_record ev w : user_data (record ev w) = user_data w.
Proof. reflexivity. Qed.

(** *** The cache after a delivery *)

Lemma job_dict_other (jobs : list Job) (m c : gmap str Job) (jid : str) :
  job_dict jobs m = Ok c ->
  (forall j, j ∈ jobs -> job_id j <> Ok jid) ->
  c !! jid = m !! jid.
Proof.
  revert m. induction jobs as [| j jobs IH]; intros m Hd Hfresh; simpl in Hd.
  - congruence.
  - destruct (job_id j) as [i | e] eqn:Hi; [| discriminate].
    rewrite (IH _ Hd).
    + apply lookup_insert_ne. intros ->. apply (Hfresh j); [left | exact Hi].
    + intros j' Hin. apply Hfresh. right. exact Hin.
Qed.


Lemma send_jobs_to_user_cache env uid j jobs c w :
  job_dict (j :: jobs) ∅ = Ok c ->
  job_files (snd (send_jobs_to_user env uid (j :: jobs) w))
  = <[uid := c]> (job_files w).
Proof.
  intros Hc. unfold send_jobs_to_user, save_job_cache.
  unfold bind at 1. unfold bind at 1. unfold lift. rewrite Hc.
  rewrite (keeps_bind job_files).
  - reflexivity.
  - apply keeps_transport, job_files_record.
  - intros _. apply keeps_send_cards, job_files_record.
Qed.




(** No postings: exactly the one notice, and nothing else changes. *)
Example no_results_notice (env : Env) (w : World) :
  telegram env (trace w) (SendMessage 7 TNoJobs None) = None ->
  send_jobs_to_user env 7 [] w
  = (Ok tt, record (SendMessage 7 TNoJobs None) w).
Proof. intros H. apply transport_ok, H. Qed.

(** *** The batch that is cached and shown *)


Lemma job_dict_from (jobs : list Job) (m c : gmap str Job) :
  job_dict jobs m = Ok c ->
  forall i j, c !! i = Some j ->
    (j ∈ jobs /\ job_id j = Ok i) \/ m !! i = Some j.
Proof.
  revert m. induction jobs as [| j0 jobs IH]; intros m Hd i j Hc; simpl in Hd.
  - right. congruence.
  - destruct (job_id j0) as [i0 | e] eqn:Hi0; [| discriminate].
    destruct (IH _ Hd i j Hc) as [[Hin Hid] | Hm].
    + left. split; [right; exact Hin | exact Hid].
    + destruct (decide (i0 = i)) as [-> | Hne].
      * rewrite lookup_insert_eq in Hm. injection Hm as <-.
        left. split; [left | exact Hi0].
      * rewrite lookup_insert_ne in Hm by exact Hne. right. exact Hm.
Qed.

Lemma job_dict_keeps_keys (jobs : list Job) (m c : gmap str Job) (i : str) :
  job_dict jobs m = Ok c -> is_Some (m !! i) -> is_Some (c !! i).
Proof.
  revert m. induction jobs as [| j0 jobs IH]; intros m Hd Hm; simpl in Hd.
  - congruence.
  - destruct (job_id j0) as [i0 | e]; [| discriminate].
    apply (IH _ Hd). rewrite lookup_insert. case_decide; eauto.
Qed.

Lemma job_dict_covers (jobs : list Job) (m c : gmap str Job) :
  job_dict jobs m = Ok c ->
  forall j, j ∈ jobs -> exists i, job_id j = Ok i /\ is_Some (c !! i).
Proof.
  revert m. induction jobs as [| j0 jobs IH]; intros m Hd j Hin; simpl in Hd.
  - inversion Hin.
  - destruct (job_id j0) as [i0 | e] eqn:Hi0; [| discriminate].
    apply elem_of_cons in Hin as [-> | Hin].
    + exists i0. split; [exact Hi0 |].
      apply (job_dict_keeps_keys _ _ _ _ Hd). rewrite lookup_insert_eq. eauto.
    + apply (IH _ Hd j Hin).
Qed.






(** *** The time-of-day state *)

Example parse_time_ok : parse_time (lit "07:30") = Ok (7, 30)%Z.
Proof. reflexivity. Qed.
Example parse_time_hour_only : parse_time (lit "7") = Ok (7, 0)%Z.
Proof. reflexivity. Qed.
Example parse_time_no_range : parse_time (lit "25:99") = Ok (25, 99)%Z.
Proof. reflexivity. Qed.
Example parse_time_negative : parse_time (lit "-5:70") = Ok (-5, 70)%Z.
Proof. reflexivity. Qed.
Example parse_time_word : parse_time (lit "morgens") = Raise ValueError.
Proof. reflexivity. Qed.
Example parse_time_no_hour : parse_time (lit ":30") = Raise ValueError.
Proof. reflexivity. Qed.

(** The scenario of the preference flow with the defaults 6:00. *)
Example jobsetup_scenario :
  let '(r, w) :=
    converse (job_setup Sample.env_ok) JOB_TITLE
      (List.map (Sample.says 7)
         ["Data Analyst"; "Berlin"; "skip"; "nein"; "ok"]%string)
      Sample.nothing in
  r = Ok END
  /\ job_prefs <$> data_files w !! 7%Z
     = Some (Some {| pref_title := lit "Data Analyst";
                     pref_location := lit "Berlin";
                     pref_keywords := [];
                     pref_remote := false;
                     pref_hour := 6; pref_minute := 0 |}).
Proof. vm_compute. split; reflexivity. Qed.




(** An hour alone is accepted as well: the minute is then 0. *)
Example time_hour_only_committed :
  let '(r, w) :=
    jobsetup_time Sample.env_ok (Sample.says 7 "7") (lit "7") Sample.asked in
  r = Ok END
  /\ (fun p => (pref_hour p, pref_minute p)) <$> (data_files w !! 7%Z ≫= job_prefs)
     = Some (7, 0)%Z.
Proof. vm_compute. split; reflexivity. Qed.

(** *** Where the flows write *)

Lemma keeps_data_load uid : keeps data_files (load_user_data uid).
Proof. intros w. reflexivity. Qed.
Lemma keeps_data_get_ctx uid : keeps data_files (get_ctx uid).
Proof. intros w. reflexivity. Qed.
Lemma keeps_data_put_ctx uid c : keeps data_files (put_ctx uid c).
Proof. intros w. reflexivity. Qed.

Ltac frame_data :=
  unfold reply_text, send_message, edit_text, delete, answer, reply_document;
  repeat first
    [ apply keeps_ret
    | apply keeps_lift
    | apply keeps_data_load
    | apply keeps_data_get_ctx
    | apply keeps_data_put_ctx
    | apply keeps_transport; intros; reflexivity
    | apply keeps_bind; [| intros ?] ].

Lemma keeps_data_jobsetup_title env update text :
  keeps data_files (jobsetup_title env update text).
Proof. unfold jobsetup_title. frame_data. Qed.

Lemma keeps_data_jobsetup_location env update text :
  keeps data_files (jobsetup_location env update text).
Proof. unfold jobsetup_location. frame_data. Qed.

Lemma keeps_data_jobsetup_keywords env update text :
  keeps data_files (jobsetup_keywords env update text).
Proof. unfold jobsetup_keywords. frame_data. Qed.

Lemma keeps_data_jobsetup_remote env update text :
  keeps data_files (jobsetup_remote env update text).
Proof. unfold jobsetup_remote. frame_data. Qed.

Lemma keeps_data_jobsetup_cancel env update :
  keeps data_files (jobsetup_cancel env update).
Proof. unfold jobsetup_cancel. frame_data. Qed.

Lemma keeps_data_setup_cancel env update :
  keeps data_files (setup_cancel env update).
Proof. unfold setup_cancel. frame_data. Qed.

Lemma keeps_data_setup_choice env update text :
  keeps data_files (setup_choice env update text).
Proof.
  unfold setup_choice. frame_data.
  destruct (bool_decide _); [frame_data |].
  destruct (decide _); frame_data.
Qed.






(** *** The daily run *)

(** [extends m]: running [m] only appends to the trace. *)
Definition extends {A} (m : M A) : Prop :=
  forall w, exists t, trace (snd (m w)) = trace w ++ t.

Lemma extends_same {A} (m : M A) :
  (forall w, trace (snd (m w)) = trace w) -> extends m.
Proof. intros H w. exists []. rewrite app_nil_r. apply H. Qed.

Lemma extends_record {A} (m : M A) :
  (forall w, exists ev, snd (m w) = record ev w) -> extends m.
Proof. intros H w. destruct (H w) as [ev ->]. exists [ev]. reflexivity. Qed.

Lemma extends_bind {A B} (m : M A) (k : A -> M B) :
  extends m -> (forall a, extends (k a)) -> extends (bind m k).
Proof.
  intros Hm Hk w. unfold bind. destruct (Hm w) as [t Ht].
  destruct (m w) as [[a | e] w']; simpl in *.
  - destruct (Hk a w') as [t' Ht']. exists (t ++ t').
    rewrite Ht', Ht, app_assoc. reflexivity.
  - eauto.
Qed.

Lemma extends_try_except {A} (m : M A) (h : Exn -> M A) :
  extends m -> (forall e, extends (h e)) -> extends (try_except m h).
Proof.
  intros Hm Hh w. unfold try_except. destruct (Hm w) as [t Ht].
  destruct (m w) as [[a | e] w']; simpl in *.
  - eauto.
  - destruct (Hh e w') as [t' Ht']. exists (t ++ t').
    rewrite Ht', Ht, app_assoc. reflexivity.
Qed.

Lemma extends_transport env ev : extends (transport env ev).
Proof.
  apply extends_record. intros w. exists ev. unfold transport.
  destruct (telegram env (trace w) ev); reflexivity.
Qed.

Lemma extends_search env prefs : extends (search_jobs_sync env prefs).
Proof.
  intros w. unfold search_jobs_sync.
  destruct (search_args prefs) as [[q l] r].
  destruct (jobspy env (trace w) q l r) as [e | | [| r0 rows]]; simpl;
    eauto using app_assoc.
Qed.

Lemma extends_send_cards env uid jobs i : extends (send_cards env uid jobs i).
Proof.
  revert i. induction jobs as [| j jobs IH]; intros i; simpl.
  - apply extends_same. reflexivity.
  - apply extends_bind; [apply extends_same; reflexivity | intros jid].
    apply extends_bind; [apply extends_transport | intros _].
    apply extends_bind; [| intros _; apply IH].
    apply extends_record. intros w. exists Sleep. reflexivity.
Qed.

Lemma extends_send_jobs_to_user env uid jobs :
  extends (send_jobs_to_user env uid jobs).
Proof.
  unfold send_jobs_to_user. destruct jobs as [| j jobs].
  - apply extends_transport.
  - apply extends_bind.
    + unfold save_job_cache. apply extends_bind;
        [apply extends_same; reflexivity | intros c].
      apply extends_same. reflexivity.
    + intros _. apply extends_bind; [apply extends_transport | intros _].
      apply extends_send_cards.
Qed.

(** A user's cycle starts with the attempt to send the notice. *)
Lemma daily_user_attempts env uid w :
  exists t, trace (snd (daily_user env uid w))
            = trace w ++ SendMessage uid TSearching None :: t.
Proof.
  unfold daily_user, load_user_data, send_message.
  unfold bind at 1. cbn [fst snd].
  unfold bind at 1. unfold transport at 1.
  destruct (telegram env (trace w) _).
  - exists []. reflexivity.
  - set (w1 := record _ w).
    destruct (extends_bind (search_jobs env (job_prefs (default no_data (data_files w !! uid))))
                (fun jobs => send_jobs_to_user env uid jobs)
                (extends_search env _)
                (fun jobs => extends_send_jobs_to_user env uid jobs) w1)
      as [t Ht].
    exists t. rewrite Ht. unfold w1. simpl. rewrite <- app_assoc. reflexivity.
Qed.

(** The guarded cycle of one user never raises. *)
Lemma guarded_ok env uid w : fst (guarded env uid w) = Ok tt.
Proof.
  unfold guarded, try_except.
  destruct (daily_user env uid w) as [[[] | e] w']; reflexivity.
Qed.

Lemma guarded_world env uid w :
  snd (guarded env uid w)
  = match daily_user env uid w with
    | (Ok _, w1) => w1
    | (Raise e, w1) => record (LogUserError uid e) w1
    end.
Proof.
  unfold guarded, try_except.
  destruct (daily_user env uid w) as [[[] | e] w']; reflexivity.
Qed.

Lemma daily_loop_cons env uid rest w :
  daily_loop env (uid :: rest) w = daily_loop env rest (snd (guarded env uid w)).
Proof.
  simpl. unfold bind.
  pose proof (guarded_ok env uid w) as Hok.
  destruct (guarded env uid w) as [[[] | e] w']; [reflexivity | discriminate].
Qed.

Lemma daily_loop_ok env uids w : fst (daily_loop env uids w) = Ok tt.
Proof.
  revert w. induction uids as [| uid uids IH]; intros w.
  - reflexivity.
  - rewrite daily_loop_cons. apply IH.
Qed.

Lemma daily_loop_app env before rest w :
  daily_loop env (before ++ rest) w
  = daily_loop env rest (snd (daily_loop env before w)).
Proof.
  revert w. induction before as [| uid before IH]; intros w.
  - reflexivity.
  - rewrite <- app_comm_cons, !daily_loop_cons. apply IH.
Qed.

Lemma extends_guarded env uid : extends (guarded env uid).
Proof.
  intros w. rewrite guarded_world.
  destruct (daily_user_attempts env uid w) as [t Ht].
  destruct (daily_user env uid w) as [[[] | e] w']; simpl in *.
  - eauto.
  - rewrite Ht, <- app_assoc. eauto.
Qed.

Lemma extends_daily_loop env uids : extends (daily_loop env uids).
Proof.
  induction uids as [| uid uids IH]; intros w.
  - exists []. rewrite app_nil_r. reflexivity.
  - rewrite daily_loop_cons.
    destruct (extends_guarded env uid w) as [t Ht].
    destruct (IH (snd (guarded env uid w))) as [t' Ht'].
    exists (t ++ t'). rewrite Ht', Ht, app_assoc. reflexivity.
Qed.

Lemma daily_loop_attempts env uids w u :
  u ∈ uids ->
  SendMessage u TSearching None ∈ trace (snd (daily_loop env uids w)).
Proof.
  revert w. induction uids as [| uid uids IH]; intros w Hin.
  - inversion Hin.
  - rewrite daily_loop_cons. apply elem_of_cons in Hin as [-> | Hin].
    + destruct (extends_daily_loop env uids (snd (guarded env uid w)))
        as [t' ->].
      rewrite guarded_world.
      destruct (daily_user_attempts env uid w) as [t Ht].
      destruct (daily_user env uid w) as [[[] | e] w']; simpl in *;
        rewrite Ht; set_solver.
    + apply IH, Hin.
Qed.

(** C5. The daily run never raises. Whatever the cycle of one user does
    (it completes, or it raises, and then the error is logged), the run
    goes on from there with every user that follows, and for each of
    them the cycle is started: its notice is attempted. *)
Theorem daily_run_isolated (env : Env) (w : World) (before : list Z)
    (uid : Z) (after : list Z) :
  fst (load_all_users w) = Ok (before ++ uid :: after) ->
  let w0 := snd (daily_loop env before (record LogInfo w)) in
  let w2 :=
    match daily_user env uid w0 with
    | (Ok _, w1) => w1
    | (Raise e, w1) => record (LogUserError uid e) w1
    end in
  daily_job_search env w = (Ok tt, snd (daily_loop env after w2))
  /\ forall u, u ∈ after ->
       SendMessage u TSearching None
       ∈ trace (snd (daily_job_search env w)).
Proof.
  intros Husers w0 w2.
  assert (Hrun : daily_job_search env w
                 = daily_loop env (before ++ uid :: after) (record LogInfo w)).
  { unfold daily_job_search, bind, logger, load_all_users in *.
    cbn [fst snd] in *. injection Husers as <-. reflexivity. }
  assert (Hsplit : daily_loop env (before ++ uid :: after) (record LogInfo w)
                   = daily_loop env after w2).
  { rewrite daily_loop_app, daily_loop_cons, guarded_world. reflexivity. }
  split.
  - rewrite Hrun, Hsplit.
    pose proof (daily_loop_ok env after w2) as Hok.
    destruct (daily_loop env after w2) as [[[] | e] w']; simpl in *;
      [reflexivity | discriminate].
  - intros u Hu. rewrite Hrun, Hsplit. apply daily_loop_attempts, Hu.
Qed.

Lemma daily_run_isolated_witness :
  fst (daily_user Sample.env_notice_refused 7
         (record LogInfo Sample.two_subscribers))
  = Raise (TelegramError 403)
  /\ forall u, u ∈ [9%Z] ->
       SendMessage u TSearching None
       ∈ trace (snd (daily_job_search Sample.env_notice_refused
                       Sample.two_subscribers)).
Proof.
  split; [vm_compute; reflexivity |].
  apply (daily_run_isolated Sample.env_notice_refused Sample.two_subscribers
           [] 7 [9%Z]).
  vm_compute. reflexivity.
Defined.

(** C7 (as amended). The notice is sent inside the same [try] as the
    search and the delivery: when it is refused, this user's cycle ends
    there, with no search and no delivery; the error is logged and the
    run goes on with the next user. *)
Theorem notice_failure_ends_cycle (env : Env) (uid : Z) (rest : list Z)
    (w : World) (e : Exn) :
  telegram env (trace w) (SendMessage uid TSearching None) = Some e ->
  daily_user env uid w
  = (Raise e, record (SendMessage uid TSearching None) w)
  /\ daily_loop env (uid :: rest) w
     = daily_loop env rest
         (record (LogUserError uid e)
            (record (SendMessage uid TSearching None) w)).
Proof.
  intros Hfail.
  assert (Huser : daily_user env uid w
                  = (Raise e, record (SendMessage uid TSearching None) w)).
  { unfold daily_user, bind, load_user_data, send_message, transport.
    cbn [fst snd]. rewrite Hfail. reflexivity. }
  split; [exact Huser |].
  rewrite daily_loop_cons, guarded_world, Huser. reflexivity.
Qed.

Lemma notice_failure_ends_cycle_witness :
  daily_user Sample.env_notice_refused 7 Sample.one_subscriber
  = (Raise (TelegramError 403),
     record (SendMessage 7 TSearching None) Sample.one_subscriber)
  /\ daily_loop Sample.env_notice_refused [7%Z; 9%Z] Sample.one_subscriber
     = daily_loop Sample.env_notice_refused [9%Z]
         (record (LogUserError 7 (TelegramError 403))
            (record (SendMessage 7 TSearching None) Sample.one_subscriber)).
Proof.
  apply (notice_failure_ends_cycle Sample.env_notice_refused 7 [9%Z]
           Sample.one_subscriber (TelegramError 403)).
  reflexivity.
Defined.

(** C7, the notice is not best-effort: user 7 refuses the notice; the
    run logs the error and is over, without a search and without a
    delivery. With a transport that accepts the notice the same user is
    searched for and served. *)
Lemma refused_notice_skips_search :
  let w := snd (daily_job_search Sample.env_notice_refused
                  Sample.one_subscriber) in
  let w_ok := snd (daily_job_search Sample.env_ok Sample.one_subscriber) in
  trace w = [LogInfo; SendMessage 7 TSearching None;
             LogUserError 7 (TelegramError 403)]
  /\ job_files w !! 7%Z = None
  /\ nth_error (trace w_ok) 2
     = Some (ScrapeJobs (lit "Data Analyst") (lit "Berlin") false)
  /\ nth_error (trace w_ok) 3 = Some (SendMessage 7 (TDigestHeader 10) None)
  /\ size <$> job_files w_ok !! 7%Z = Some 10%nat.
Proof. vm_compute. repeat split; reflexivity. Qed.

(** *** The cover-letter callback *)

Example callback_data_parts :
  callback_parts (callback_data 7 (lit "a8585d9290c3"))
  = Ok (7%Z, lit "a8585d9290c3").
Proof. vm_compute. reflexivity. Qed.

Lemma truthy_str_some (s : str) : s <> [] -> truthy_str (Some s) = true.
Proof. destruct s; [congruence | reflexivity]. Qed.



(** The same press when the cache is gone: still the setup notice, not
    the stale-cache notice. *)
Example missing_documents_before_stale :
  let w := set_job_files ∅ Sample.no_sample in
  fst (load_job_from_cache 8 (lit "a8585d9290c3") w) = Ok None
  /\ trace (snd (callback_anschreiben Sample.env_ok Sample.press_8 w))
     = [Answer 8; ReplyText 8 TNeedSetup].
Proof. split; vm_compute; reflexivity. Qed.

(** With both documents and an id that is not cached: the stale-cache
    notice. *)
Example stale_reference :
  skipn (length (trace Sample.served))
    (trace (snd (callback_anschreiben Sample.env_ok Sample.press_big
                   Sample.served)))
  = [Answer 7; ReplyText 7 TStaleCache].
Proof. vm_compute. reflexivity. Qed.

(** Two worlds look the same to a callback for user [uid] when they
    agree on that user's profile, on that user's cache and on what has
    happened so far. *)

Section View.

Variable uid : Z.













End View.



(** The foreign press has user 7's CV and sample sent to the provider
    and the letter delivered. *)
Example foreign_press_uses_owner_documents :
  skipn (length (trace Sample.served))
    (trace (snd (callback_anschreiben Sample.env_ok Sample.press_foreign
                   Sample.served)))
  = [Answer 7;
     ReplyText 7 (TCreating (lit "Data Analyst") (lit "ACME"));
     MessagesCreate (lit "Lebenslauf") (lit "Muster")
       (stellentext Sample.analyst);
     Delete 7;
     ReplyText 7 (TLetter (letter_header Sample.analyst
                           ++ lit "Sehr geehrte Damen und Herren"))].
Proof. vm_compute. reflexivity. Qed.

(** *** Delivery of the letter *)




(* ===================================================================== *)
(** ** More of bot.py *)
(* ===================================================================== *)

(** A message given by its text, as sent. *)
Abbreviation TPlain := TLetter.

(** [f"{n:02d}"] *)
Definition format02d (n : Z) : str :=
  if ((0 <=? n) && (n <? 10))%Z then lit "0" ++ str_of_Z n else str_of_Z n.

(** *** Cleaning a fetched page (the two [re.sub] of [fetch_url_text]) *)

(** Is there a [>] ahead? *)
Fixpoint has_gt (s : str) : bool :=
  match s with
  | [] => false
  | c :: r => (c =? 0x3E) || has_gt r
  end.

(** Does [<[^>]+>] match when [<] was just read and [s] follows: one
    character that is not [>], and a [>] somewhere after it. *)
Definition opens_tag (s : str) : bool :=
  match s with
  | [] => false
  | x :: r => negb (x =? 0x3E) && has_gt r
  end.

(** [re.sub(r"<[^>]+>", " ", s)]: matches are taken leftmost, each runs
    to the first [>]. [inside] says that a match is being consumed. *)
Fixpoint sub_tags (inside : bool) (s : str) : str :=
  match s with
  | [] => []
  | c :: r =>
      if inside then
        if c =? 0x3E then 0x20 :: sub_tags false r else sub_tags true r
      else if (c =? 0x3C) && opens_tag r then sub_tags true r
      else c :: sub_tags false r
  end.

(** [re.sub(r"\s+", " ", s)]: every run of whitespace becomes one
    space. [run] says that the previous character was whitespace. *)
Fixpoint sub_spaces (run : bool) (s : str) : str :=
  match s with
  | [] => []
  | c :: r =>
      if isspace c then
        if run then sub_spaces true r else 0x20 :: sub_spaces true r
      else c :: sub_spaces false r
  end.

(** What [fetch_url_text] makes of the body of the response. *)
Definition clean_page (html : str) : str :=
  prefix (12 * 1000) (strip (sub_spaces false (sub_tags false html))).

(** *** Decoding an uploaded file (the tail of [download_telegram_file]) *)

Definition continuation (b : N) : bool := (0x80 <=? b) && (b <=? 0xBF).

(** [bytes.decode("utf-8")]: well-formed UTF-8 only (no overlong forms,
    no surrogates, nothing above U+10FFFF); [None] is
    UnicodeDecodeError. *)
Fixpoint utf8_decode (bs : bytes) : option str :=
  match bs with
  | [] => Some []
  | b0 :: r0 =>
      if b0 <? 0x80 then cons b0 <$> utf8_decode r0
      else if (0xC2 <=? b0) && (b0 <=? 0xDF) then
        match r0 with
        | b1 :: r1 =>
            if continuation b1
            then cons ((b0 - 0xC0) * 64 + (b1 - 0x80)) <$> utf8_decode r1
            else None
        | _ => None
        end
      else if (0xE0 <=? b0) && (b0 <=? 0xEF) then
        match r0 with
        | b1 :: b2 :: r2 =>
            if continuation b1 && continuation b2
               && (negb (b0 =? 0xE0) || (0xA0 <=? b1))
               && (negb (b0 =? 0xED) || (b1 <=? 0x9F))
            then cons ((b0 - 0xE0) * 4096 + (b1 - 0x80) * 64 + (b2 - 0x80))
                   <$> utf8_decode r2
            else None
        | _ => None
        end
      else if (0xF0 <=? b0) && (b0 <=? 0xF4) then
        match r0 with
        | b1 :: b2 :: b3 :: r3 =>
            if continuation b1 && continuation b2 && continuation b3
               && (negb (b0 =? 0xF0) || (0x90 <=? b1))
               && (negb (b0 =? 0xF4) || (b1 <=? 0x8F))
            then cons ((b0 - 0xF0) * 262144 + (b1 - 0x80) * 4096
                       + (b2 - 0x80) * 64 + (b3 - 0x80))
                   <$> utf8_decode r3
            else None
        | _ => None
        end
      else None
  end.

(** ["\n".join(pages)] *)
Fixpoint join_lines (pages : list str) : str :=
  match pages with
  | [] => []
  | [p] => p
  | p :: rest => p ++ 0x0A :: join_lines rest
  end.

Section More.

Variable env : Env.

(** The page fetch of [fetch_url_text]: the body of the response, or
    what [client.get] or [raise_for_status] raise. *)
Variable fetch : list Event -> str -> Res str.

(** [str(e)] of an exception, for the messages that quote it. *)
Variable show_exn : Exn -> str.

(** The text of each page of a PDF ([extract_text() or ""]), or what
    pypdf raises. *)
Variable pdf_pages : bytes -> Res (list str).

(** [/alert] *)
Definition cmd_alert (update : Update) : M unit :=
  let uid := effective_user update in
  do data <- load_user_data uid;
  match job_prefs data with
  | None => reply_text env (chat update) TNeedJobsetup
  | Some _ =>
      let current := default false (job_alert_active data) in
      do _ <- save_user_data uid
                {| lebenslauf := lebenslauf data; muster := muster data;
                   job_prefs := job_prefs data;
                   job_alert_active := Some (negb current) |};
      if negb current then
        reply_text env (chat update)
          (TPlain ([0x1F514] ++ lit " T" ++ [0xE4]
                   ++ lit "glicher Job-Alert *aktiviert*!" ++ [0x0A]
                   ++ lit "Du bekommst jeden Tag um "
                   ++ format02d (DAILY_HOUR env) ++ lit ":"
                   ++ format02d (DAILY_MINUTE env)
                   ++ lit " UTC deine Job-Vorschl" ++ [0xE4] ++ lit "ge."))
      else
        reply_text env (chat update)
          (TPlain ([0x1F515] ++ lit " T" ++ [0xE4]
                   ++ lit "glicher Job-Alert *deaktiviert*."))
  end.

Definition fetch_url_text (url : str) : M str :=
  fun w =>
    match fetch (trace w) url with
    | Ok html => (Ok (clean_page html), w)
    | Raise e => (Raise e, w)
    end.

(** The header of a letter made from a link. *)
Definition link_header : str :=
  [0x1F4C4] ++ lit " *Dein Anschreiben:*" ++ [0x0A]
  ++ times [0x2500] 30 ++ [0x0A; 0x0A].

(** A message with a link to a posting. *)
Definition handle_url (update : Update) (text : str) : M unit :=
  let url := strip text in
  let user_id := effective_user update in
  let reply := chat update in
  do data <- load_user_data user_id;
  if negb (truthy_str (lebenslauf data)) || negb (truthy_str (muster data))
  then
    reply_text env reply
      (TPlain ([0x274C] ++ lit " Bitte zuerst /setup ausf" ++ [0xFC]
               ++ lit "hren."))
  else
    do _ <- reply_text env reply
              (TPlain ([0x1F50D] ++ lit " Lade Stellenausschreibung..."));
    do fetched <-
      try_except
        (do page <- fetch_url_text url; ret (Some page))
        (fun e =>
           do _ <- edit_text env reply
                     (TPlain ([0x274C]
                              ++ lit " URL konnte nicht geladen werden: "
                              ++ show_exn e));
           ret None);
    match fetched with
    | None => ret tt
    | Some stellentext =>
        do _ <- edit_text env reply
                  (TPlain ([0x270D; 0xFE0F]
                           ++ lit " Generiere Anschreiben... (20" ++ [0x2013]
                           ++ lit "30 Sek.)"));
        let cv := default [] (lebenslauf data) in
        let sample := default [] (muster data) in
        do generated <-
          try_except
            (do letter <- generate_anschreiben env cv sample stellentext;
             ret (Some letter))
            (fun e =>
               do _ <- edit_text env reply
                         (TPlain ([0x274C]
                                  ++ lit " Fehler bei der Generierung: "
                                  ++ show_exn e));
               ret None);
        match generated with
        | None => ret tt
        | Some anschreiben =>
            do _ <- delete env reply;
            let full := link_header ++ anschreiben in
            if (length full <=? 4096)%nat then
              reply_text env reply (TLetter full)
            else
              do document <- lift (from_option Ok (Raise UnicodeEncodeError)
                                     (encode anschreiben));
              reply_document env reply document (lit "Anschreiben.txt")
                (TPlain ([0x1F4C4] ++ lit " Dein Anschreiben (als Datei)"))
        end
    end.

(** The lines of [download_telegram_file] after the download: UTF-8
    if the content is UTF-8, else the text of the PDF, else Latin-1
    (one character per byte). *)
Definition decode_content (content : bytes) : str :=
  match utf8_decode content with
  | Some text => text
  | None =>
      match pdf_pages content with
      | Ok pages => join_lines pages
      | Raise _ => content
      end
  end.

End More.

(** *** Reading the world and writing updates *)

(** The profile of a user, empty if there is no file. *)
Definition profile (w : World) (uid : Z) : UserData :=
  default no_data (data_files w !! uid).

(** A text message of user [u] in chat [c]. *)
Definition text_of (u c : Z) (t : str) : Update :=
  {| effective_user := u; chat := c; message := MText t |}.

Definition file_of (u c : Z) (file_id : str) : Update :=
  {| effective_user := u; chat := c; message := MDocument file_id |}.

(** The hour and minute [jobsetup_time] takes from an answer: the
    condition and the [try] of its first lines. *)
Definition time_answer (env : Env) (text : str) : Res (Z * Z) :=
  if decide (lower (strip text) = lit "ok")
  then Ok (DAILY_HOUR env, DAILY_MINUTE env)
  else parse_time (lower (strip text)).

(** The two notices of [handle_url] that an edit replaces. *)
Definition loading : Text :=
  TPlain ([0x1F50D] ++ lit " Lade Stellenausschreibung...").
Definition generating : Text :=
  TPlain ([0x270D; 0xFE0F] ++ lit " Generiere Anschreiben... (20" ++ [0x2013]
          ++ lit "30 Sek.)").

(** *** More sample data *)

Module Cases.

(** A page that loads, and one that does not. *)
Definition page : str :=
  lit "<html><body><h1>Data  Analyst</h1>" ++ [0x0A; 0x09]
  ++ lit "<p class='x'>SQL &amp; <b>Python</b></p></body></html>".
Definition fetch_ok : list Event -> str -> Res str := fun _ _ => Ok page.
Definition fetch_down : list Event -> str -> Res str :=
  fun _ _ => Raise (DownloadError 404).
Definition show_exn : Exn -> str := fun _ => lit "404 Not Found".

(** A source that raises, and a provider that raises. *)
Definition env_source_down : Env :=
  {| DAILY_HOUR := 6; DAILY_MINUTE := 0;
     telegram := fun _ _ => None;
     jobspy := fun _ _ _ _ => ScrapeRaises (JobSpyError 429);
     anthropic := fun _ _ _ _ => Ok (lit "Sehr geehrte Damen und Herren");
     telegram_file := fun _ _ => Ok (lit "Lebenslauf") |}.

(** A download that tells the two files apart, and a PDF reader that
    gives up. *)
Definition env_files : Env :=
  {| DAILY_HOUR := 6; DAILY_MINUTE := 0;
     telegram := fun _ _ => None;
     jobspy := fun _ _ _ _ => ScrapeNone;
     anthropic := fun _ _ _ _ => Ok (lit "Sehr geehrte Damen und Herren");
     telegram_file := fun _ file_id =>
       if decide (file_id = lit "cv.pdf") then Ok (lit "Lebenslauf")
       else Ok (lit "Muster") |}.
Definition pdf_none : bytes -> Res (list str) := fun _ => Raise ValueError.

(** A link sent by user 7, and the five answers of /jobsetup. *)
Definition link : Update := Sample.says 7 " https://jobs.example/2 ".


End Cases.

(* ===================================================================== *)
(** ** More properties *)
(* ===================================================================== *)

(** *** Trimming *)

Definition nospace (s : str) : Prop := Forall (fun c => isspace c = false) s.

Lemma lstrip_head (c : N) (s : str) : isspace c = false -> lstrip (c :: s) = c :: s.
Proof. intros H. simpl. rewrite H. reflexivity. Qed.

Lemma lstrip_app_keep (l : str) (c : N) (r : str) :
  isspace c = false -> lstrip (l ++ c :: r) = lstrip l ++ c :: r.
Proof.
  intros Hc. induction l as [| x l IH]; simpl.
  - rewrite Hc. reflexivity.
  - destruct (isspace x); [exact IH | reflexivity].
Qed.

(** A string is trimmed when it neither starts nor ends with whitespace. *)
Definition trimmed (s : str) : Prop :=
  lstrip s = s /\ lstrip (rev s) = rev s.

Lemma strip_trimmed_id (s : str) : trimmed s -> strip s = s.
Proof.
  intros [Hl Hr]. unfold strip, rstrip. rewrite Hl, Hr. apply rev_involutive.
Qed.

Lemma lstrip_fixed (s : str) : lstrip (lstrip s) = lstrip s.
Proof.
  induction s as [| c s IH]; [reflexivity |]. simpl.
  destruct (isspace c) eqn:Hc; [exact IH |]. simpl. rewrite Hc. reflexivity.
Qed.

Lemma lstrip_nil_or_head (s : str) :
  lstrip s = [] \/ exists c r, lstrip s = c :: r /\ isspace c = false.
Proof.
  induction s as [| c s IH]; [left; reflexivity |]. simpl.
  destruct (isspace c) eqn:Hc; [exact IH |]. right. eauto.
Qed.

Lemma strip_is_trimmed (s : str) : trimmed (strip s).
Proof.
  unfold trimmed, strip, rstrip. rewrite rev_involutive, lstrip_fixed.
  split; [| reflexivity].
  destruct (lstrip_nil_or_head s) as [-> | (c & r & -> & Hc)]; [reflexivity |].
  simpl rev. rewrite lstrip_app_keep by exact Hc.
  rewrite rev_app_distr. simpl. rewrite Hc. reflexivity.
Qed.

Lemma strip_idempotent (s : str) : strip (strip s) = strip s.
Proof. apply strip_trimmed_id, strip_is_trimmed. Qed.

Lemma lstrip_length (s : str) : (length (lstrip s) <= length s)%nat.
Proof.
  induction s as [| c s IH]; simpl; [lia |].
  destruct (isspace c); simpl; lia.
Qed.

Lemma strip_length (s : str) : (length (strip s) <= length s)%nat.
Proof.
  unfold strip, rstrip. rewrite length_rev.
  etransitivity; [apply lstrip_length |]. rewrite length_rev.
  apply lstrip_length.
Qed.

Lemma nospace_trimmed (s : str) : nospace s -> trimmed s.
Proof.
  intros H. split.
  - destruct H as [| c s Hc _]; [reflexivity | apply lstrip_head, Hc].
  - apply Forall_rev in H. destruct H as [| c r Hc _];
      [reflexivity | apply lstrip_head, Hc].
Qed.

(** *** [int(str(n)) == n] *)

(** Reading the digits of a decimal numeral from the left. *)
Fixpoint horner (acc : N) (d : Decimal.uint) : N :=
  match d with
  | Decimal.Nil => acc
  | Decimal.D0 l => horner (10 * acc) l
  | Decimal.D1 l => horner (1 + 10 * acc) l
  | Decimal.D2 l => horner (2 + 10 * acc) l
  | Decimal.D3 l => horner (3 + 10 * acc) l
  | Decimal.D4 l => horner (4 + 10 * acc) l
  | Decimal.D5 l => horner (5 + 10 * acc) l
  | Decimal.D6 l => horner (6 + 10 * acc) l
  | Decimal.D7 l => horner (7 + 10 * acc) l
  | Decimal.D8 l => horner (8 + 10 * acc) l
  | Decimal.D9 l => horner (9 + 10 * acc) l
  end.

Lemma horner_lu (d : Decimal.uint) (acc : N) :
  horner acc d
  = Unsigned.of_lu (Decimal.rev d) + acc * 10 ^ Unsigned.usize d.
Proof.
  revert acc. induction d; intros acc; simpl Unsigned.usize;
    [simpl; lia | ..];
    rewrite N.pow_succ_r'; unfold Decimal.rev; simpl Decimal.revapp;
    rewrite Unsigned.of_lu_revapp; simpl Unsigned.of_lu; simpl horner;
    rewrite IHd; unfold Decimal.rev; lia.
Qed.

Lemma horner_of_uint (d : Decimal.uint) : horner 0 d = Pos.of_uint d.
Proof. rewrite horner_lu, Unsigned.of_uint_alt. lia. Qed.

Definition uint_nonnil (d : Decimal.uint) : bool :=
  match d with Decimal.Nil => false | _ => true end.

Lemma int_digits_cons_digit (acc : Z) (prev : bool) (k : N) (s : str) :
  k < 10 ->
  int_digits acc prev ((48 + k) :: s)
  = int_digits (10 * acc + Z.of_N k)%Z true s.
Proof.
  intros Hk. cbn [int_digits]. unfold isdigit.
  replace ((48 <=? 48 + k) && (48 + k <=? 57)) with true.
  - f_equal. lia.
  - symmetry. apply andb_true_iff. split; apply N.leb_le; lia.
Qed.

Ltac digit_case IH k :=
  cbn [NilEmpty.string_of_uint]; unfold lit;
  cbn [list_ascii_of_string List.map];
  match goal with
  | |- context [N_of_ascii ?a :: ?s] =>
      change (N_of_ascii a :: s) with ((48 + k) :: s)
  end;
  rewrite int_digits_cons_digit by reflexivity;
  match goal with
  | |- int_digits ?z true _ = _ =>
      match goal with
      | |- context [horner ?a ?d] =>
          replace z with (Z.of_N (k + 10 * a)) by lia
      end
  end;
  unfold lit in IH; rewrite IH; cbn [uint_nonnil horner orb];
  rewrite orb_true_r, ?N.add_0_l; reflexivity.

Lemma int_digits_numeral (d : Decimal.uint) (acc : N) (prev : bool) :
  int_digits (Z.of_N acc) prev (lit (NilEmpty.string_of_uint d))
  = if uint_nonnil d || prev then Some (Z.of_N (horner acc d)) else None.
Proof.
  revert acc prev.
  induction d; intros acc prev.
  - destruct prev; reflexivity.
  - digit_case IHd 0.
  - digit_case IHd 1.
  - digit_case IHd 2.
  - digit_case IHd 3.
  - digit_case IHd 4.
  - digit_case IHd 5.
  - digit_case IHd 6.
  - digit_case IHd 7.
  - digit_case IHd 8.
  - digit_case IHd 9.
Qed.

(** The characters of [str(n)]: digits, after a minus sign if [n < 0]. *)
Lemma numeral_digits (d : Decimal.uint) :
  Forall (fun c => isdigit c = true) (lit (NilEmpty.string_of_uint d)).
Proof.
  induction d; cbn [NilEmpty.string_of_uint]; unfold lit in *;
    cbn [list_ascii_of_string List.map]; constructor;
    solve [reflexivity | assumption].
Qed.

Lemma numeral_nonnil (d : Decimal.uint) :
  uint_nonnil d = true ->
  NilZero.string_of_uint d = NilEmpty.string_of_uint d.
Proof. destruct d; [discriminate | reflexivity ..]. Qed.

Lemma to_uint_nonnil (p : positive) : uint_nonnil (Pos.to_uint p) = true.
Proof.
  pose proof (Unsigned.to_uint_nonnil p) as H.
  destruct (Pos.to_uint p); [congruence | reflexivity ..].
Qed.

Lemma isdigit_nospace (c : N) : isdigit c = true -> isspace c = false.
Proof.
  unfold isdigit, isspace. intros H.
  apply andb_true_iff in H as [H1 H2].
  apply N.leb_le in H1, H2.
  repeat (apply orb_false_iff; split);
    try (apply andb_false_iff);
    try (apply N.eqb_neq; lia);
    try (left; apply N.leb_gt; lia);
    try (right; apply N.leb_gt; lia).
Qed.

Lemma int_of_numeral (d : Decimal.uint) :
  uint_nonnil d = true ->
  int (lit (NilEmpty.string_of_uint d)) = Some (Z.of_N (Pos.of_uint d)).
Proof.
  intros Hd. unfold int.
  rewrite strip_trimmed_id.
  2:{ apply nospace_trimmed. eapply Forall_impl; [apply numeral_digits |].
      intros c Hc. apply isdigit_nospace, Hc. }
  pose proof (int_digits_numeral d 0 false) as H.
  rewrite Hd in H. cbn [orb] in H. change (Z.of_N 0) with 0%Z in H.
  rewrite horner_of_uint in H.
  pose proof (numeral_digits d) as Hdig.
  destruct (lit (NilEmpty.string_of_uint d)) as [| c s] eqn:Hs.
  { destruct d; discriminate. }
  apply Forall_cons in Hdig as [Hc _].
  assert (c <> 0x2D /\ c <> 0x2B) as [H1 H2].
  { unfold isdigit in Hc. apply andb_true_iff in Hc as [Ha Hb].
    apply N.leb_le in Ha, Hb. lia. }
  destruct c as [| p]; [exact H |].
  do 6 (destruct p as [p | p |]; try exact H); congruence.
Qed.

(** [int(str(n)) == n], for every integer. *)
Lemma int_str_of_Z (n : Z) : int (str_of_Z n) = Some n.
Proof.
  unfold str_of_Z. destruct n as [| p | p]; cbn [Z.to_int].
  - reflexivity.
  - cbn [NilZero.string_of_int].
    rewrite numeral_nonnil by apply to_uint_nonnil.
    rewrite int_of_numeral by apply to_uint_nonnil.
    rewrite Unsigned.of_to. reflexivity.
  - cbn [NilZero.string_of_int].
    rewrite numeral_nonnil by apply to_uint_nonnil.
    unfold int.
    assert (Hlit : lit (String "-" (NilEmpty.string_of_uint (Pos.to_uint p)))
                   = 0x2D :: lit (NilEmpty.string_of_uint (Pos.to_uint p)))
      by reflexivity.
    rewrite Hlit.
    rewrite strip_trimmed_id.
    2:{ apply nospace_trimmed. constructor; [reflexivity |].
        eapply Forall_impl; [apply numeral_digits |].
        intros c Hc. apply isdigit_nospace, Hc. }
    pose proof (int_digits_numeral (Pos.to_uint p) 0 false) as H.
    rewrite to_uint_nonnil in H. cbn [orb] in H.
    change (Z.of_N 0) with 0%Z in H. rewrite horner_of_uint in H.
    rewrite Unsigned.of_to in H.
    cbv beta iota. rewrite H. reflexivity.
Qed.

(** *** The shape of an id *)

Definition is_hex (c : N) : bool :=
  ((0x30 <=? c) && (c <=? 0x39)) || ((0x61 <=? c) && (c <=? 0x66)).

Lemma le_bytes_length (n : nat) (x : N) : length (MD5.le_bytes n x) = n.
Proof. revert x. induction n; intros x; simpl; [| rewrite IHn]; reflexivity. Qed.

Lemma le_bytes_small (n : nat) (x : N) :
  Forall (fun b => b < 256) (MD5.le_bytes n x).
Proof.
  revert x. induction n; intros x; simpl; constructor; [| apply IHn].
  apply N.mod_lt. discriminate.
Qed.

Lemma digest_shape (msg : bytes) :
  length (MD5.digest msg) = 16%nat /\ Forall (fun b => b < 256) (MD5.digest msg).
Proof.
  unfold MD5.digest.
  destruct (fold_left MD5.block _ MD5.init) as [A B C D].
  split.
  - rewrite !length_app, !le_bytes_length. reflexivity.
  - repeat (apply Forall_app; split); apply le_bytes_small.
Qed.

Lemma hexdigit_is_hex (n : N) : n < 16 -> is_hex (MD5.hexdigit n) = true.
Proof.
  intros Hn. unfold MD5.hexdigit, is_hex.
  destruct (N.ltb_spec n 10).
  - apply orb_true_iff. left. apply andb_true_iff.
    split; apply N.leb_le; lia.
  - apply orb_true_iff. right. apply andb_true_iff.
    split; apply N.leb_le; lia.
Qed.

Lemma hex_of_bytes (bs : bytes) :
  Forall (fun b => b < 256) bs ->
  let hex := List.concat
               (List.map (fun b => [MD5.hexdigit (b / 16); MD5.hexdigit (b mod 16)])
                  bs) in
  length hex = (2 * length bs)%nat /\ Forall (fun c => is_hex c = true) hex.
Proof.
  induction 1 as [| b bs Hb _ [IHl IHf]]; simpl; [split; [reflexivity | constructor] |].
  split; [simpl in IHl; lia |].
  constructor; [| constructor; [| exact IHf]].
  - apply hexdigit_is_hex. apply N.Div0.div_lt_upper_bound. lia.
  - apply hexdigit_is_hex. apply N.mod_lt. discriminate.
Qed.

Lemma hexdigest_shape (msg : bytes) :
  length (MD5.hexdigest msg) = 32%nat
  /\ Forall (fun c => is_hex c = true) (MD5.hexdigest msg).
Proof.
  destruct (digest_shape msg) as [Hl Hs].
  destruct (hex_of_bytes _ Hs) as [Hl' Hf].
  unfold MD5.hexdigest. rewrite Hl in Hl'. split; assumption.
Qed.

Lemma job_id_hex (job : Job) (jid : str) :
  job_id job = Ok jid -> Forall (fun c => is_hex c = true) jid.
Proof.
  unfold job_id. destruct (encode _) as [raw |]; [| discriminate].
  intros H.
  assert (jid = Py.prefix 12 (MD5.hexdigest raw)) as -> by congruence.
  unfold Py.prefix. apply Forall_take, hexdigest_shape.
Qed.

(** X1. An id is twelve characters, each a digit or one of a to f: it
    holds no colon, no whitespace, no upper-case letter and nothing
    outside ASCII. *)
Theorem job_id_shape (job : Job) (jid : str) :
  job_id job = Ok jid ->
  length jid = 12%nat /\ Forall (fun c => is_hex c = true) jid.
Proof.
  intros H. split; [| exact (job_id_hex job jid H)].
  unfold job_id in H. destruct (encode _) as [raw |]; [| discriminate].
  assert (jid = Py.prefix 12 (MD5.hexdigest raw)) as -> by congruence.
  unfold Py.prefix. rewrite length_firstn, (proj1 (hexdigest_shape raw)).
  reflexivity.
Qed.

Lemma job_id_shape_witness :
  length (lit "a8585d9290c3") = 12%nat
  /\ Forall (fun c => is_hex c = true) (lit "a8585d9290c3").
Proof.
  apply (job_id_shape Sample.analyst (lit "a8585d9290c3")).
  vm_compute. reflexivity.
Defined.

(** *** Splitting *)

Lemma split_no_sep (sep : N) (s : str) : sep ∉ s -> split sep s = [s].
Proof.
  induction s as [| c s IH]; intros Hs; [reflexivity |].
  apply not_elem_of_cons in Hs as [Hc Hs]. simpl.
  destruct (N.eqb_spec c sep); [congruence |]. rewrite IH by exact Hs.
  reflexivity.
Qed.

Lemma split_app_sep (sep : N) (a b : str) :
  sep ∉ a -> split sep (a ++ sep :: b) = a :: split sep b.
Proof.
  induction a as [| c a IH]; intros Ha; simpl.
  - rewrite N.eqb_refl. reflexivity.
  - apply not_elem_of_cons in Ha as [Hc Ha].
    destruct (N.eqb_spec c sep); [congruence |]. rewrite IH by exact Ha.
    reflexivity.
Qed.

Lemma str_of_Z_chars (n : Z) :
  Forall (fun c => c = 0x2D \/ isdigit c = true) (str_of_Z n).
Proof.
  unfold str_of_Z. destruct n as [| p | p]; cbn [Z.to_int NilZero.string_of_int].
  - constructor; [right; reflexivity | constructor].
  - rewrite numeral_nonnil by apply to_uint_nonnil.
    eapply Forall_impl; [apply numeral_digits | auto].
  - rewrite numeral_nonnil by apply to_uint_nonnil.
    change (lit (String "-" ?s)) with (0x2D :: lit s).
    constructor; [auto |].
    eapply Forall_impl; [apply numeral_digits | auto].
Qed.

Lemma str_of_Z_no_colon (n : Z) : 0x3A ∉ str_of_Z n.
Proof.
  intros Hin. pose proof (str_of_Z_chars n) as H.
  rewrite Forall_forall in H. destruct (H _ Hin) as [H' | H'];
    [discriminate | vm_compute in H'; discriminate].
Qed.

(** A payload is read back as the user and the id it was made from,
    whenever the id holds no colon. *)
Lemma callback_parts_data (user_id : Z) (jid : str) :
  0x3A ∉ jid ->
  callback_parts (callback_data user_id jid) = Ok (user_id, jid).
Proof.
  intros Hjid. unfold callback_parts, callback_data.
  change (lit "anschreiben:" ++ str_of_Z user_id ++ lit ":" ++ jid)
    with (lit "anschreiben" ++ 0x3A :: (str_of_Z user_id ++ 0x3A :: jid)).
  rewrite (split_app_sep 0x3A (lit "anschreiben")).
  2:{ intros Hin. apply list_elem_of_In in Hin. vm_compute in Hin.
      intuition discriminate. }
  rewrite split_app_sep by apply str_of_Z_no_colon.
  rewrite split_no_sep by exact Hjid.
  cbn [lookup list_lookup]. simpl. rewrite int_str_of_Z. reflexivity.
Qed.

Lemma hex_no_colon (jid : str) :
  Forall (fun c => is_hex c = true) jid -> 0x3A ∉ jid.
Proof.
  intros H Hin. rewrite Forall_forall in H. specialize (H _ Hin).
  vm_compute in H. discriminate.
Qed.

(** X2. The payload of a button made for any user, negative chat ids
    included, and the id of any posting is read back by the callback as
    exactly this user and this id. *)
Theorem callback_data_round_trip (user_id : Z) (job : Job) (jid : str) :
  job_id job = Ok jid ->
  callback_parts (callback_data user_id jid) = Ok (user_id, jid).
Proof.
  intros H. apply callback_parts_data, hex_no_colon, (job_id_hex job), H.
Qed.

Lemma callback_data_round_trip_witness :
  callback_parts (callback_data (-1001234) (lit "a8585d9290c3"))
  = Ok ((-1001234)%Z, lit "a8585d9290c3").
Proof.
  apply (callback_data_round_trip (-1001234) Sample.analyst).
  vm_compute. reflexivity.
Defined.

(** *** Every button that goes out can be pressed *)

(** What [send_cards] may add to the trace: pauses, and cards of
    postings of the batch, each with the payload made from the
    posting's id and with the posting's url. *)
Definition card_event (uid : Z) (jobs : list Job) (ev : Event) : Prop :=
  ev = Sleep
  \/ exists i j jid,
       ev = SendMessage uid (TJobCard i j)
              (Some (callback_data uid jid, job_url j))
       /\ j ∈ jobs /\ job_id j = Ok jid.

Lemma card_event_more uid j jobs ev :
  card_event uid jobs ev -> card_event uid (j :: jobs) ev.
Proof.
  intros [-> | (i & j' & jid & -> & Hin & Hid)]; [left; reflexivity |].
  right. exists i, j', jid. split; [reflexivity |]. split; [right | ]; assumption.
Qed.

Lemma send_cards_events env uid jobs i w :
  exists t, trace (snd (send_cards env uid jobs i w)) = trace w ++ t
            /\ Forall (card_event uid jobs) t.
Proof.
  revert i w. induction jobs as [| j jobs IH]; intros i w.
  - exists []. rewrite app_nil_r. split; [reflexivity | constructor].
  - cbn [send_cards]. unfold bind at 1, lift.
    destruct (job_id j) as [jid | e] eqn:Hjid.
    2:{ exists []. rewrite app_nil_r. split; [reflexivity | constructor]. }
    assert (Hcard : card_event uid (j :: jobs)
                      (SendMessage uid (TJobCard i j)
                         (Some (callback_data uid jid, job_url j)))).
    { right. exists i, j, jid. split; [reflexivity |]. split; [left | exact Hjid]. }
    unfold bind at 1, send_message, transport.
    destruct (telegram env (trace w) _).
    { eexists [_]. split; [reflexivity |]. constructor; [exact Hcard | constructor]. }
    unfold bind at 1, sleep.
    match goal with
    | |- context [send_cards env uid jobs (S i) ?w1] =>
        destruct (IH (S i) w1) as (t & Ht & Hall)
    end.
    eexists (_ :: Sleep :: t). split.
    + rewrite Ht. cbn [trace record]. rewrite <- !app_assoc. reflexivity.
    + constructor; [exact Hcard |]. constructor; [left; reflexivity |].
      eapply Forall_impl; [exact Hall |]. intros ev. apply card_event_more.
Qed.

(** X3. Whatever the transport does, a button that was sent with a
    digest resolves: its payload reads back as this user and an id, the
    cache written for this delivery holds a posting under that id, and
    the button belongs to a card of the batch with that posting's id
    and the card's own url. *)
Theorem digest_buttons_resolve (env : Env) (uid : Z) (jobs : list Job)
    (w : World) (chat : Z) (text : Text) (data url : str) :
  let w' := snd (send_jobs_to_user env uid jobs w) in
  SendMessage chat text (Some (data, url))
  ∈ drop (length (trace w)) (trace w') ->
  exists i shown jid cached,
    text = TJobCard i shown /\ shown ∈ jobs /\ url = job_url shown
    /\ job_id shown = Ok jid
    /\ callback_parts data = Ok (uid, jid)
    /\ fst (load_job_from_cache uid jid w') = Ok (Some cached)
    /\ cached ∈ jobs /\ job_id cached = Ok jid.
Proof.
  intros w' Hin.
  destruct jobs as [| j jobs].
  { unfold w', send_jobs_to_user, send_message, transport in Hin.
    destruct (telegram env (trace w) _); cbn [snd trace record] in Hin;
      rewrite drop_app_length in Hin;
      apply list_elem_of_singleton in Hin; discriminate. }
  destruct (job_dict (j :: jobs) ∅) as [c | e] eqn:Hc.
  2:{ unfold w', send_jobs_to_user, save_job_cache, bind, lift in Hin.
      rewrite Hc in Hin. cbn [snd] in Hin. rewrite drop_all in Hin.
      inversion Hin. }
  assert (Hcache : job_files w' !! uid = Some c).
  { unfold w'. rewrite (send_jobs_to_user_cache env uid j jobs c w Hc).
    apply lookup_insert_eq. }
  assert (Hev : card_event uid (j :: jobs)
                  (SendMessage chat text (Some (data, url)))).
  { unfold w', send_jobs_to_user, save_job_cache in Hin.
    rewrite (bind_ok (bind (lift _) _) _ w tt
               (set_job_files (<[uid := c]> (job_files w)) w)) in Hin
      by (unfold bind, lift; rewrite Hc; reflexivity).
    unfold bind at 1, send_message, transport in Hin.
    cbn [trace set_job_files] in Hin.
    destruct (telegram env (trace w) _).
    { cbn [snd trace record set_job_files] in Hin.
      rewrite drop_app_length in Hin.
      apply list_elem_of_singleton in Hin. discriminate. }
    match type of Hin with
    | context [send_cards env uid (j :: jobs) 1 ?w1] =>
        destruct (send_cards_events env uid (j :: jobs) 1 w1)
          as (t & Ht & Hall)
    end.
    rewrite Ht in Hin. cbn [trace record set_job_files] in Hin.
    rewrite <- app_assoc, drop_app_length in Hin.
    apply elem_of_cons in Hin as [Hin | Hin]; [discriminate |].
    rewrite Forall_forall in Hall. apply Hall, Hin. }
  destruct Hev as [Hev | (i & shown & jid & Hev & Hshown & Hid)];
    [discriminate |].
  injection Hev as -> -> -> ->.
  destruct (job_dict_covers _ _ _ Hc shown Hshown) as (jid' & Hid' & [cached Hl]).
  assert (jid' = jid) as -> by congruence.
  destruct (job_dict_from _ _ _ Hc jid cached Hl) as [[Hcin Hcid] | He];
    [| rewrite lookup_empty in He; discriminate].
  exists i, shown, jid, cached.
  repeat split; try assumption.
  - apply callback_parts_data, hex_no_colon, (job_id_hex shown), Hid.
  - unfold load_job_from_cache. rewrite Hcache. cbn [fst]. rewrite Hl.
    reflexivity.
Qed.

Lemma digest_buttons_resolve_witness :
  exists i shown jid cached,
    TJobCard 1 Sample.analyst = TJobCard i shown
    /\ shown ∈ [Sample.analyst]
    /\ job_url Sample.analyst = job_url shown
    /\ job_id shown = Ok jid
    /\ callback_parts (callback_data 7 (lit "a8585d9290c3")) = Ok (7%Z, jid)
    /\ fst (load_job_from_cache 7 jid Sample.served) = Ok (Some cached)
    /\ cached ∈ [Sample.analyst] /\ job_id cached = Ok jid.
Proof.
  apply (digest_buttons_resolve Sample.env_ok 7 [Sample.analyst]
           Sample.one_subscriber 7).
  vm_compute. repeat constructor.
Defined.

(** *** Who is in the daily run *)

Lemma load_all_users_spec (w : World) :
  exists users,
    load_all_users w = (Ok users, w)
    /\ NoDup users
    /\ forall uid, uid ∈ users <->
         exists d, data_files w !! uid = Some d /\ alert_user d = true.
Proof.
  unfold load_all_users. eexists. split; [reflexivity |]. split.
  - pose proof (NoDup_fst_map_to_list (data_files w)) as Hnd.
    induction (map_to_list (data_files w)) as [| [k d] l IH]; simpl in *.
    + constructor.
    + apply NoDup_cons in Hnd as [Hk Hnd].
      destruct (alert_user d); simpl; [| apply IH, Hnd].
      apply NoDup_cons. split; [| apply IH, Hnd].
      intros Hin. apply Hk. apply list_elem_of_In, in_map_iff in Hin.
      destruct Hin as ([k' d'] & Hfst & Hin). simpl in Hfst. subst k'.
      apply filter_In in Hin as [Hin _].
      apply list_elem_of_In, in_map_iff. exists (k, d'). split; [reflexivity | exact Hin].
  - intros uid. rewrite list_elem_of_In, in_map_iff. split.
    + intros ([k d] & Hk & Hin). simpl in Hk. subst k.
      apply filter_In in Hin as [Hin Ha]. simpl in Ha.
      exists d. split; [| exact Ha].
      apply elem_of_map_to_list, list_elem_of_In, Hin.
    + intros (d & Hd & Ha). exists (uid, d). split; [reflexivity |].
      apply filter_In. split; [| exact Ha].
      apply list_elem_of_In, elem_of_map_to_list, Hd.
Qed.


(** The users of the daily run, as a predicate on the world. *)
Definition listed (w : World) (uid : Z) : Prop :=
  exists d, data_files w !! uid = Some d /\ alert_user d = true.

Lemma listed_load (w : World) (uid : Z) (users : list Z) :
  fst (load_all_users w) = Ok users -> (uid ∈ users <-> listed w uid).
Proof.
  destruct (load_all_users_spec w) as (us & Hrun & _ & Hin).
  rewrite Hrun. intros [= <-]. apply Hin.
Qed.

(** X5. /alert needs preferences: without them it writes nothing. With
    them it flips the flag and nothing else, before it replies: the
    user is in the daily run afterwards exactly if not before, whether
    or not the reply goes out; nobody else's listing changes. *)
Theorem cmd_alert_toggles (env : Env) (update : Update) (w : World)
    (users users' : list Z) :
  let uid := effective_user update in
  let data := default no_data (data_files w !! uid) in
  let w' := snd (cmd_alert env update w) in
  fst (load_all_users w) = Ok users ->
  fst (load_all_users w') = Ok users' ->
  (job_prefs data = None -> data_files w' = data_files w)
  /\ (is_Some (job_prefs data) -> (uid ∈ users' <-> uid ∉ users))
  /\ (forall v, v <> uid -> (v ∈ users' <-> v ∈ users))
  /\ lebenslauf (default no_data (data_files w' !! uid)) = lebenslauf data
  /\ muster (default no_data (data_files w' !! uid)) = muster data
  /\ job_prefs (default no_data (data_files w' !! uid)) = job_prefs data
  /\ job_files w' = job_files w.
Proof.
  intros uid data w' Hu Hu'.
  assert (Hw' : (job_prefs data = None /\ data_files w' = data_files w
                 /\ job_files w' = job_files w)
                \/ (is_Some (job_prefs data)
                    /\ job_files w' = job_files w
                    /\ data_files w'
                       = <[uid := {| lebenslauf := lebenslauf data;
                                     muster := muster data;
                                     job_prefs := job_prefs data;
                                     job_alert_active :=
                                       Some (negb (default false
                                                     (job_alert_active data))) |}]>
                           (data_files w))).
  { unfold w', cmd_alert, bind, load_user_data, save_user_data, reply_text,
      transport. cbn [fst snd]. fold uid. fold data.
    destruct (job_prefs data) as [p |] eqn:Hp.
    - right. split; [eauto |].
      destruct (negb (default false (job_alert_active data)));
        cbn [trace set_data_files];
        destruct (telegram env _ _); cbn [snd]; split; reflexivity.
    - left. split; [reflexivity |].
      destruct (telegram env _ _); cbn [snd]; split; reflexivity. }
  destruct Hw' as [(Hnone & Hd & Hj) | (Hsome & Hj & Hd)].
  - split; [intros _; exact Hd |]. split.
    { intros [p Hp]. congruence. }
    split.
    { intros v _. rewrite (listed_load w' v users' Hu'), (listed_load w v users Hu).
      unfold listed. rewrite Hd. reflexivity. }
    rewrite Hd. repeat split; try reflexivity. exact Hj.
  - split.
    { intros Hn. destruct Hsome as [p Hp]. congruence. }
    split.
    { intros _.
      rewrite (listed_load w' uid users' Hu'), (listed_load w uid users Hu).
      unfold listed. rewrite Hd, lookup_insert_eq.
      destruct Hsome as [p Hp]. unfold data in *.
      destruct (data_files w !! uid) as [d0 |] eqn:Hd0; cbn [from_option id] in *;
        [| discriminate].
      unfold alert_user. split.
      - intros (d & Heq & Ha) (d1 & Heq1 & Ha1).
        injection Heq as <-. injection Heq1 as <-.
        cbn [job_prefs job_alert_active] in Ha. rewrite Hp in Ha, Ha1.
        destruct (job_alert_active d0) as [[] |]; discriminate.
      - intros Hnot. eexists. split; [reflexivity |].
        cbn [job_prefs job_alert_active]. rewrite Hp.
        destruct (job_alert_active d0) as [[] |] eqn:Ha0; try reflexivity.
        exfalso. apply Hnot. exists d0. split; [reflexivity |].
        rewrite Hp, Ha0. reflexivity. }
    split.
    { intros v Hv.
      rewrite (listed_load w' v users' Hu'), (listed_load w v users Hu).
      unfold listed. rewrite Hd, lookup_insert_ne by congruence. reflexivity. }
    rewrite Hd, lookup_insert_eq. cbn. repeat split; try reflexivity. exact Hj.
Qed.

Lemma cmd_alert_toggles_witness :
  let w := Sample.one_subscriber in
  let w' := snd (cmd_alert Sample.env_ok (Sample.commands 7 "alert") w) in
  fst (load_all_users w) = Ok [7%Z]
  /\ fst (load_all_users w') = Ok []
  /\ job_prefs (profile w' 7) = job_prefs (profile w 7)
  /\ job_files w' = job_files w.
Proof.
  cbv zeta.
  assert (H : fst (load_all_users Sample.one_subscriber) = Ok [7%Z])
    by (vm_compute; reflexivity).
  assert (H' : fst (load_all_users
                      (snd (cmd_alert Sample.env_ok (Sample.commands 7 "alert")
                              Sample.one_subscriber))) = Ok [])
    by (vm_compute; reflexivity).
  pose proof (cmd_alert_toggles Sample.env_ok (Sample.commands 7 "alert")
                Sample.one_subscriber [7%Z] [] H H')
    as (_ & _ & _ & _ & _ & Hp & Hj).
  repeat split; assumption.
Defined.

(** *** What a search hands on *)

Lemma prefix_length (n : nat) (s : str) : (length (prefix n s) <= n)%nat.
Proof. unfold Py.prefix. rewrite length_firstn. lia. Qed.

(** The fields of a posting, in the order of the dict. *)
Definition fields (j : Job) : list str :=
  [title j; company j; location j; job_url j; description j;
   date_posted j; site j].

Lemma row_job_normal (r : Row) :
  Forall (fun f => strip f = f) (fields (row_job r))
  /\ (length (description (row_job r)) <= 4000)%nat.
Proof.
  split.
  - unfold fields, row_job. cbn.
    repeat constructor; apply strip_idempotent.
  - cbn. etransitivity; [apply strip_length | apply prefix_length].
Qed.

(** X6. Every search, whatever the source answers, ends normally with at
    most ten postings; each field of each posting is trimmed (stripping
    it again changes nothing) and no description is longer than 4000
    characters. *)
Theorem search_result_normal (env : Env) (prefs : option Prefs) (w : World) :
  exists jobs,
    fst (search_jobs_sync env prefs w) = Ok jobs
    /\ (length jobs <= 10)%nat
    /\ Forall (fun j => Forall (fun f => strip f = f) (fields j)
                        /\ (length (description j) <= 4000)%nat) jobs.
Proof.
  unfold search_jobs_sync. destruct (search_args prefs) as [[q l] r].
  destruct (jobspy env (trace w) q l r) as [e | | [| r0 rows]];
    try (exists []; cbn; repeat split; [lia | constructor]).
  exists (List.map row_job (firstn 10 (r0 :: rows))). split.
  - unfold fst. rewrite collect_rows_take by (simpl; lia). reflexivity.
  - split.
    + rewrite length_map, length_firstn. lia.
    + apply Forall_forall. intros j Hj.
      apply list_elem_of_In, in_map_iff in Hj as (r1 & <- & _).
      apply row_job_normal.
Qed.

(** *** The query *)

Lemma lstrip_app (s r : str) :
  lstrip (s ++ r) = match lstrip s with [] => lstrip r | _ => lstrip s ++ r end.
Proof.
  induction s as [| c s IH]; simpl.
  - destruct (lstrip r); reflexivity.
  - destruct (isspace c); [exact IH | reflexivity].
Qed.

Lemma strip_app_space (s : str) : strip (s ++ [0x20]) = strip s.
Proof.
  unfold strip, rstrip. rewrite lstrip_app.
  destruct (lstrip s) as [| c r] eqn:Hs; [reflexivity |].
  rewrite rev_app_distr. cbn [rev app]. cbn [lstrip].
  change (isspace 0x20) with true. cbv iota. reflexivity.
Qed.

(** X7. The query sent to the source is trimmed; with no keywords it is
    the title alone, trimmed, without the blank that joins title and
    keywords; and for empty preferences the search is for "Software
    Engineer" in "Deutschland", not remote. *)
Theorem search_args_query (prefs : option Prefs) :
  let '(full_query, loc, is_remote) := search_args prefs in
  strip full_query = full_query
  /\ (forall p, prefs = Some p -> pref_keywords p = [] ->
      full_query = strip (pref_title p)
      /\ loc = pref_location p /\ is_remote = pref_remote p)
  /\ (prefs = None ->
      full_query = lit "Software Engineer" /\ loc = lit "Deutschland"
      /\ is_remote = false).
Proof.
  unfold search_args. split; [apply strip_idempotent |]. split.
  - intros p -> Hk. cbn [from_option]. rewrite Hk.
    change (lit " " ++ []) with [0x20]. rewrite strip_app_space.
    repeat split.
  - intros ->. repeat split.
Qed.

(** *** A search that fails *)

Lemma search_raises env prefs w e :
  (let '(q, l, r) := search_args prefs in
   jobspy env (trace w) q l r = ScrapeRaises e) ->
  let '(q, l, r) := search_args prefs in
  search_jobs_sync env prefs w
  = (Ok [], record (LogScrapeError e) (record (ScrapeJobs q l r) w)).
Proof.
  unfold search_jobs_sync. destruct (search_args prefs) as [[q l] r].
  intros ->. reflexivity.
Qed.

(** X8. When the source raises, the search logs the error and returns no
    postings: in the daily cycle and in /suchenow alike the user gets
    the one "no results" notice, the handler ends normally, and
    profiles and caches are as before. *)
Theorem search_failure_is_empty_result (env : Env) (update : Update)
    (uid : Z) (w : World) (e : Exn) (p : Prefs) :
  (forall history ev, telegram env history ev = None) ->
  (forall history q l r, jobspy env history q l r = ScrapeRaises e) ->
  job_prefs (default no_data (data_files w !! uid)) = Some p ->
  effective_user update = uid ->
  let '(q, l, r) := search_args (Some p) in
  daily_user env uid w
  = (Ok tt,
     record (SendMessage uid TNoJobs None)
       (record (LogScrapeError e)
          (record (ScrapeJobs q l r)
             (record (SendMessage uid TSearching None) w))))
  /\ cmd_suchenow env update w
     = (Ok tt,
        record (SendMessage uid TNoJobs None)
          (record (Delete (chat update))
             (record (LogScrapeError e)
                (record (ScrapeJobs q l r)
                   (record (ReplyText (chat update) TSearchingNow) w))))).
Proof.
  intros Htg Hjs Hp Hu.
  pose proof (fun w0 => search_raises env (Some p) w0 e) as Hs.
  destruct (search_args (Some p)) as [[q l] r] eqn:Hargs.
  split.
  - unfold daily_user, send_message, search_jobs.
    rewrite (bind_ok (load_user_data uid) _ w _ w eq_refl).
    rewrite (bind_ok _ _ _ _ _ (transport_ok _ _ _ (Htg _ _))).
    rewrite Hp.
    rewrite (bind_ok _ _ _ _ _ (Hs _ (Hjs _ _ _ _))).
    unfold send_jobs_to_user, send_message.
    apply transport_ok, Htg.
  - unfold cmd_suchenow, search_jobs, reply_text, delete. rewrite Hu.
    rewrite (bind_ok (load_user_data uid) _ w _ w eq_refl).
    rewrite Hp.
    rewrite (bind_ok _ _ _ _ _ (transport_ok _ _ _ (Htg _ _))).
    rewrite (bind_ok _ _ _ _ _ (Hs _ (Hjs _ _ _ _))).
    rewrite (bind_ok _ _ _ _ _ (transport_ok _ _ _ (Htg _ _))).
    unfold send_jobs_to_user, send_message.
    apply transport_ok, Htg.
Qed.

Lemma search_failure_is_empty_result_witness :
  let w := Sample.one_subscriber in
  daily_user Cases.env_source_down 7 w
  = (Ok tt,
     record (SendMessage 7 TNoJobs None)
       (record (LogScrapeError (JobSpyError 429))
          (record (ScrapeJobs (lit "Data Analyst") (lit "Berlin") false)
             (record (SendMessage 7 TSearching None) w))))
  /\ cmd_suchenow Cases.env_source_down (Sample.commands 7 "suchenow") w
     = (Ok tt,
        record (SendMessage 7 TNoJobs None)
          (record (Delete 7)
             (record (LogScrapeError (JobSpyError 429))
                (record (ScrapeJobs (lit "Data Analyst") (lit "Berlin") false)
                   (record (ReplyText 7 TSearchingNow) w))))).
Proof.
  exact (search_failure_is_empty_result Cases.env_source_down
           (Sample.commands 7 "suchenow") 7 Sample.one_subscriber
           (JobSpyError 429)
           {| pref_title := lit "Data Analyst"; pref_location := lit "Berlin";
              pref_keywords := []; pref_remote := false;
              pref_hour := 6; pref_minute := 0 |}
           (fun _ _ => eq_refl) (fun _ _ _ _ => eq_refl) eq_refl eq_refl).
Defined.

(** *** What the daily run leaves alone *)

Lemma keeps_save_job_cache {X} (f : World -> X) uid jobs :
  (forall c w, f (set_job_files (<[uid := c]> (job_files w)) w) = f w) ->
  keeps f (save_job_cache uid jobs).
Proof.
  intros Hf w. unfold save_job_cache, bind, lift.
  destruct (job_dict jobs ∅); cbn [snd]; [apply Hf | reflexivity].
Qed.

Lemma keeps_send_jobs_to_user {X} (f : World -> X) env uid jobs :
  (forall ev w, f (record ev w) = f w) ->
  (forall c w, f (set_job_files (<[uid := c]> (job_files w)) w) = f w) ->
  keeps f (send_jobs_to_user env uid jobs).
Proof.
  intros Hr Hf. unfold send_jobs_to_user, send_message.
  destruct jobs as [| j jobs]; [apply keeps_transport, Hr |].
  apply keeps_bind; [apply keeps_save_job_cache, Hf | intros _].
  apply keeps_bind; [apply keeps_transport, Hr | intros _].
  apply keeps_send_cards, Hr.
Qed.

Lemma keeps_daily_user {X} (f : World -> X) env uid :
  (forall ev w, f (record ev w) = f w) ->
  (forall c w, f (set_job_files (<[uid := c]> (job_files w)) w) = f w) ->
  keeps f (daily_user env uid).
Proof.
  intros Hr Hf. unfold daily_user, send_message, search_jobs.
  apply keeps_bind; [intros w; reflexivity | intros data].
  apply keeps_bind; [apply keeps_transport, Hr | intros _].
  apply keeps_bind; [apply keeps_search, Hr | intros jobs].
  apply keeps_send_jobs_to_user; assumption.
Qed.

Lemma keeps_daily_loop {X} (f : World -> X) env uids :
  (forall ev w, f (record ev w) = f w) ->
  (forall uid c w, uid ∈ uids ->
     f (set_job_files (<[uid := c]> (job_files w)) w) = f w) ->
  keeps f (daily_loop env uids).
Proof.
  intros Hr Hf. induction uids as [| uid uids IH]; cbn [daily_loop].
  - apply keeps_ret.
  - apply keeps_bind.
    + unfold guarded. apply keeps_try_except.
      * apply keeps_daily_user; [exact Hr |]. intros c w. apply Hf. left.
      * intros e. apply keeps_logger, Hr.
    + intros _. apply IH. intros u c w Hu. apply Hf. right. exact Hu.
Qed.

(** X9. The daily run changes no profile and no collected answers, and it
    leaves the cache of every user it does not list untouched. *)
Theorem daily_run_frame (env : Env) (w : World) (users : list Z) :
  fst (load_all_users w) = Ok users ->
  let w' := snd (daily_job_search env w) in
  data_files w' = data_files w
  /\ user_data w' = user_data w
  /\ forall v, v ∉ users -> job_files w' !! v = job_files w !! v.
Proof.
  intros Hu w'.
  assert (Hrun : w' = snd (daily_loop env users (record LogInfo w))).
  { unfold w', daily_job_search, bind, logger, load_all_users in *.
    cbn [fst snd] in *. injection Hu as <-. reflexivity. }
  rewrite Hrun. split; [| split].
  - rewrite (keeps_daily_loop data_files env users); try reflexivity.
  - rewrite (keeps_daily_loop user_data env users); try reflexivity.
  - intros v Hv.
    rewrite (keeps_daily_loop (fun w0 => job_files w0 !! v) env users);
      try reflexivity.
    intros uid c w0 Hin. cbn. apply lookup_insert_ne. intros ->. exact (Hv Hin).
Qed.

Lemma daily_run_frame_witness :
  let w := Sample.two_subscribers in
  let w' := snd (daily_job_search Sample.env_ok w) in
  data_files w' = data_files w
  /\ user_data w' = user_data w
  /\ forall v, v ∉ [7%Z; 9%Z] -> job_files w' !! v = job_files w !! v.
Proof.
  apply (daily_run_frame Sample.env_ok Sample.two_subscribers [7%Z; 9%Z]).
  vm_compute. reflexivity.
Defined.

(** *** A conversation step touches its own user only *)

Section Foreign.

Context {X : Type} (f : World -> X) (u : Z).
Hypothesis f_record : forall ev w, f (record ev w) = f w.
Hypothesis f_ctx :
  forall c w, f (set_user_data (<[u := c]> (user_data w)) w) = f w.
Hypothesis f_data :
  forall d w, f (set_data_files (<[u := d]> (data_files w)) w) = f w.

Lemma keeps_reader {A} (m : M A) : (forall w, snd (m w) = w) -> keeps f m.
Proof. intros H w. rewrite H. reflexivity. Qed.

Lemma keeps_put_ctx c : keeps f (put_ctx u c).
Proof. intros w. apply f_ctx. Qed.

Lemma keeps_save_user_data d : keeps f (save_user_data u d).
Proof. intros w. apply f_data. Qed.

Ltac foreign :=
  unfold reply_text, send_message, edit_text, delete, answer, reply_document;
  repeat first
    [ apply keeps_ret
    | apply keeps_lift
    | apply keeps_put_ctx
    | apply keeps_save_user_data
    | apply keeps_transport; exact f_record
    | apply keeps_download; exact f_record
    | apply keeps_reader; intros ?; reflexivity
    | apply keeps_bind; [| intros ?] ].

Lemma keeps_foreign_job_setup env st update h :
  effective_user update = u ->
  job_setup env st update = Some h -> keeps f h.
Proof.
  intros Hu Hh. unfold job_setup in Hh.
  destruct st, (message update) as [text | name | file_id];
    try discriminate;
    try (destruct (is_abbrechen _); [| discriminate]);
    injection Hh as <-;
    unfold jobsetup_title, jobsetup_location, jobsetup_keywords,
      jobsetup_remote, jobsetup_time, jobsetup_cancel;
    rewrite ?Hu; try solve [foreign].
  destruct (if decide _ then _ else _) as [[hour minute] | e]; foreign.
Qed.

Lemma keeps_foreign_doc_setup env st update h :
  effective_user update = u ->
  doc_setup env st update = Some h -> keeps f h.
Proof.
  intros Hu Hh. unfold doc_setup in Hh.
  destruct st, (message update) as [text | name | file_id] eqn:Hm;
    try discriminate;
    try (destruct (is_abbrechen _); [| discriminate]);
    injection Hh as <-;
    unfold setup_choice, setup_cv, setup_muster, setup_cancel;
    rewrite ?Hm, ?Hu; try solve [foreign].
  - foreign. destruct (bool_decide _); [foreign |].
    destruct (decide _); foreign.
  - foreign. destruct (decide _); foreign.
Qed.

End Foreign.

Lemma jobsetup_time_profile env update text w :
  let u := effective_user update in
  let w' := snd (jobsetup_time env update text w) in
  data_files w' = data_files w
  \/ exists p, data_files w'
               = <[u := {| lebenslauf := lebenslauf (profile w u);
                           muster := muster (profile w u);
                           job_prefs := Some p;
                           job_alert_active := job_alert_active (profile w u) |}]>
                   (data_files w).
Proof.
  cbv zeta. unfold jobsetup_time.
  destruct (if decide _ then _ else _) as [[hour minute] | e].
  - unfold bind, load_user_data, get_ctx, lift, save_user_data, reply_text,
      transport, ret. cbn [fst snd].
    destruct (ctx_job_title _); cbn [from_option fst snd]; [| left; reflexivity].
    destruct (ctx_job_location _); cbn [from_option fst snd];
      [| left; reflexivity].
    right. eexists.
    destruct (telegram env _ _); cbn [snd data_files record set_data_files];
      reflexivity.
  - left. unfold bind, reply_text, transport, ret.
    destruct (telegram env _ _); reflexivity.
Qed.

Lemma setup_doc_profile env update w :
  let u := effective_user update in
  (let w' := snd (setup_cv env update w) in
   data_files w' = data_files w
   \/ exists t, data_files w'
                = <[u := {| lebenslauf := Some t;
                            muster := muster (profile w u);
                            job_prefs := job_prefs (profile w u);
                            job_alert_active := job_alert_active (profile w u) |}]>
                    (data_files w))
  /\ (let w' := snd (setup_muster env update w) in
      data_files w' = data_files w
      \/ exists t, data_files w'
                   = <[u := {| lebenslauf := lebenslauf (profile w u);
                               muster := Some t;
                               job_prefs := job_prefs (profile w u);
                               job_alert_active := job_alert_active (profile w u) |}]>
                       (data_files w)).
Proof.
  cbv zeta. unfold setup_cv, setup_muster.
  destruct (message update) as [text | name | file_id].
  1, 2: split; left; unfold bind, reply_text, transport, ret;
        destruct (telegram env _ _); reflexivity.
  unfold bind, reply_text, transport, download_telegram_file, load_user_data,
    save_user_data, get_ctx, ret.
  split.
  - destruct (telegram env (trace w) _); cbn [fst snd]; [left; reflexivity |].
    cbn [trace record]. destruct (telegram_file env _ _) as [t | e];
      cbn [fst snd]; [| left; reflexivity].
    right. exists t. cbn [data_files record user_data set_data_files].
    destruct (decide _); destruct (telegram env _ _); reflexivity.
  - destruct (telegram env (trace w) _); cbn [fst snd]; [left; reflexivity |].
    cbn [trace record]. destruct (telegram_file env _ _) as [t | e];
      cbn [fst snd]; [| left; reflexivity].
    right. exists t. cbn [data_files record user_data set_data_files trace].
    destruct (telegram env _ _); reflexivity.
Qed.

(** X10. A step of either conversation, by any user and with any outcome,
    touches no cache, no other user's profile and no other user's
    collected answers. In the user's own profile it leaves the alert
    flag alone; a /jobsetup step leaves both documents alone and a
    /setup step the preferences. *)
Theorem flow_step_isolated (env : Env) (st : State) (update : Update)
    (h : M Next) (w : World) :
  job_setup env st update = Some h \/ doc_setup env st update = Some h ->
  let u := effective_user update in
  let w' := snd (h w) in
  job_files w' = job_files w
  /\ (forall v, v <> u ->
      data_files w' !! v = data_files w !! v
      /\ user_data w' !! v = user_data w !! v)
  /\ job_alert_active (profile w' u) = job_alert_active (profile w u)
  /\ (job_setup env st update = Some h ->
      lebenslauf (profile w' u) = lebenslauf (profile w u)
      /\ muster (profile w' u) = muster (profile w u))
  /\ (doc_setup env st update = Some h ->
      job_prefs (profile w' u) = job_prefs (profile w u)).
Proof.
  intros Hh u w'.
  assert (Hkeep : forall {X} (f : World -> X),
             (forall ev w, f (record ev w) = f w) ->
             (forall c w, f (set_user_data (<[u := c]> (user_data w)) w) = f w) ->
             (forall d w, f (set_data_files (<[u := d]> (data_files w)) w) = f w) ->
             f w' = f w).
  { intros X f H1 H2 H3. destruct Hh as [Hh | Hh].
    - apply (keeps_foreign_job_setup f u H1 H2 H3 env st update h eq_refl Hh).
    - apply (keeps_foreign_doc_setup f u H1 H2 H3 env st update h eq_refl Hh). }
  assert (Hown : data_files w' = data_files w
                 \/ exists d, data_files w' = <[u := d]> (data_files w)
                    /\ job_alert_active d = job_alert_active (profile w u)
                    /\ (job_setup env st update = Some h ->
                        lebenslauf d = lebenslauf (profile w u)
                        /\ muster d = muster (profile w u))
                    /\ (doc_setup env st update = Some h ->
                        job_prefs d = job_prefs (profile w u))).
  { destruct Hh as [Hh | Hh].
    - pose proof Hh as Hh'. unfold job_setup in Hh'.
      destruct st, (message update) as [text | name | file_id] eqn:Hm;
        try discriminate;
        try (destruct (is_abbrechen _); [| discriminate]);
        injection Hh' as Hh'; subst w';
        try (left; rewrite <- Hh';
             first [ apply keeps_data_jobsetup_title
                   | apply keeps_data_jobsetup_location
                   | apply keeps_data_jobsetup_keywords
                   | apply keeps_data_jobsetup_remote
                   | apply keeps_data_jobsetup_cancel ]).
      rewrite <- Hh'.
      destruct (jobsetup_time_profile env update text w) as [H | [p H]];
        [left; exact H |].
      right. eexists. split; [exact H |]. cbn. split; [reflexivity |].
      split; [intros _; split; reflexivity |].
      intros Hd. unfold doc_setup in Hd. discriminate.
    - pose proof Hh as Hh'. unfold doc_setup in Hh'.
      destruct st, (message update) as [text | name | file_id] eqn:Hm;
        try discriminate;
        try (destruct (is_abbrechen _); [| discriminate]);
        injection Hh' as Hh'; subst w';
        try (left; rewrite <- Hh';
             first [ apply keeps_data_setup_choice
                   | apply keeps_data_setup_cancel ]).
      + rewrite <- Hh'.
        destruct (proj1 (setup_doc_profile env update w)) as [H | [t H]];
          [left; exact H |].
        right. eexists. split; [exact H |]. cbn. split; [reflexivity |].
        split; [| intros _; reflexivity].
        intros Hj. unfold job_setup in Hj. discriminate.
      + rewrite <- Hh'.
        destruct (proj2 (setup_doc_profile env update w)) as [H | [t H]];
          [left; exact H |].
        right. eexists. split; [exact H |]. cbn. split; [reflexivity |].
        split; [| intros _; reflexivity].
        intros Hj. unfold job_setup in Hj. discriminate. }
  split.
  { apply (Hkeep _ job_files); reflexivity. }
  split.
  { intros v Hv. split.
    - apply (Hkeep _ (fun w0 => data_files w0 !! v)); try reflexivity.
      intros d w0. cbn. apply lookup_insert_ne. congruence.
    - apply (Hkeep _ (fun w0 => user_data w0 !! v)); try reflexivity.
      intros c w0. cbn. apply lookup_insert_ne. congruence. }
  unfold profile at 1 3 5 7.
  destruct Hown as [-> | (d & -> & Ha & Hj & Hd)].
  - repeat split; reflexivity.
  - rewrite lookup_insert_eq. cbn [default from_option id].
    split; [exact Ha |]. split; [exact Hj | exact Hd].
Qed.

Lemma flow_step_isolated_witness :
  let update := Sample.says 7 "7:30" in
  let w := Sample.asked in
  let w' := snd (jobsetup_time Sample.env_ok update (lit "7:30") w) in
  job_files w' = job_files w
  /\ (forall v, v <> 7%Z ->
      data_files w' !! v = data_files w !! v
      /\ user_data w' !! v = user_data w !! v)
  /\ job_alert_active (profile w' 7) = job_alert_active (profile w 7).
Proof.
  cbv zeta.
  pose proof (flow_step_isolated Sample.env_ok JOB_TIME (Sample.says 7 "7:30")
                (jobsetup_time Sample.env_ok (Sample.says 7 "7:30") (lit "7:30"))
                Sample.asked (or_introl eq_refl)) as (H1 & H2 & H3 & _).
  exact (conj H1 (conj H2 H3)).
Defined.

(** *** The two conversations from start to end *)

Ltac flow_step Htg :=
  cbn [converse job_setup doc_setup message text_of file_of];
  unfold jobsetup_title, jobsetup_location, jobsetup_keywords, jobsetup_remote,
    setup_choice, setup_cv, setup_muster;
  cbn [message effective_user chat text_of file_of];
  unfold bind, get_ctx, put_ctx, load_user_data, save_user_data, reply_text,
    download_telegram_file, transport, ret, lift;
  cbn [fst snd trace record user_data data_files set_user_data set_data_files];
  rewrite ?Htg, ?lookup_insert_eq;
  cbn [fst snd from_option id
       ctx_setup_choice ctx_job_title ctx_job_location ctx_job_keywords
       ctx_job_remote].



(** X12. The choice decides what /setup stores, with a transport and a
    download that succeed: "1" the CV and the conversation ends, "2" the
    sample, "3" the CV and then the sample; any other answer stores
    nothing and asks again. Whatever is not being stored stays. *)
Theorem setup_flow_by_choice (env : Env) (u c : Z) (choice f1 f2 t1 t2 : str)
    (w : World) :
  (forall history ev, telegram env history ev = None) ->
  (forall history, telegram_file env history f1 = Ok t1) ->
  (forall history, telegram_file env history f2 = Ok t2) ->
  let run updates := converse (doc_setup env) SETUP_CHOICE updates w in
  let stored updates := data_files (snd (run updates)) !! u in
  let old := profile w u in
  (strip choice = lit "1" ->
   fst (run [text_of u c choice; file_of u c f1]) = Ok END
   /\ stored [text_of u c choice; file_of u c f1]
      = Some {| lebenslauf := Some t1; muster := muster old;
                job_prefs := job_prefs old;
                job_alert_active := job_alert_active old |})
  /\ (strip choice = lit "2" ->
      fst (run [text_of u c choice; file_of u c f2]) = Ok END
      /\ stored [text_of u c choice; file_of u c f2]
         = Some {| lebenslauf := lebenslauf old; muster := Some t2;
                   job_prefs := job_prefs old;
                   job_alert_active := job_alert_active old |})
  /\ (strip choice = lit "3" ->
      fst (run [text_of u c choice; file_of u c f1; file_of u c f2]) = Ok END
      /\ stored [text_of u c choice; file_of u c f1; file_of u c f2]
         = Some {| lebenslauf := Some t1; muster := Some t2;
                   job_prefs := job_prefs old;
                   job_alert_active := job_alert_active old |})
  /\ (strip choice ∉ [lit "1"; lit "2"; lit "3"] ->
      fst (run [text_of u c choice]) = Ok (Goto SETUP_CHOICE)
      /\ data_files (snd (run [text_of u c choice])) = data_files w).
Proof.
  intros Htg Hf1 Hf2. cbv zeta. unfold profile.
  split; [| split; [| split]]; intros Hc.
  - flow_step Htg. rewrite Hc.
    replace (bool_decide (lit "1" ∈ [lit "1"; lit "3"])) with true
      by (symmetry; apply bool_decide_eq_true; left).
    cbn [fst snd trace record user_data data_files set_user_data].
    rewrite ?Htg. cbn [fst snd].
    flow_step Htg. rewrite ?Hf1, ?Htg.
    cbn [fst snd trace record user_data data_files set_user_data set_data_files].
    rewrite ?Htg, ?lookup_insert_eq. cbn [fst snd ctx_setup_choice from_option id].
    destruct (decide (Some (lit "1") = Some (lit "3"))) as [H | _];
      [discriminate H |].
    cbn [trace record set_data_files]. rewrite ?Htg.
    cbn [fst snd data_files record set_data_files].
    rewrite lookup_insert_eq. split; reflexivity.
  - flow_step Htg. rewrite Hc.
    replace (bool_decide (lit "2" ∈ [lit "1"; lit "3"])) with false
      by (symmetry; apply bool_decide_eq_false; intros H;
          apply list_elem_of_In in H; vm_compute in H; intuition discriminate).
    destruct (decide (lit "2" = lit "2")) as [_ | H]; [| congruence].
    cbn [fst snd trace record user_data data_files set_user_data].
    rewrite ?Htg. cbn [fst snd].
    flow_step Htg. rewrite ?Hf2, ?Htg.
    cbn [fst snd trace record user_data data_files set_user_data set_data_files].
    rewrite ?Htg. cbn [fst snd data_files record set_data_files].
    rewrite lookup_insert_eq. split; reflexivity.
  - flow_step Htg. rewrite Hc.
    replace (bool_decide (lit "3" ∈ [lit "1"; lit "3"])) with true
      by (symmetry; apply bool_decide_eq_true; right; left).
    cbn [fst snd trace record user_data data_files set_user_data].
    rewrite ?Htg. cbn [fst snd].
    flow_step Htg. rewrite ?Hf1, ?Htg.
    cbn [fst snd trace record user_data data_files set_user_data set_data_files].
    rewrite ?Htg, ?lookup_insert_eq. cbn [fst snd ctx_setup_choice from_option id].
    destruct (decide (Some (lit "3") = Some (lit "3"))) as [_ | H];
      [| congruence].
    cbn [trace record set_data_files]. rewrite ?Htg. cbn [fst snd].
    flow_step Htg. rewrite ?Hf2, ?Htg.
    cbn [fst snd trace record user_data data_files set_user_data set_data_files].
    rewrite ?Htg, ?lookup_insert_eq.
    cbn [fst snd data_files record set_data_files from_option id
         lebenslauf muster job_prefs job_alert_active].
    rewrite ?lookup_insert_eq. split; reflexivity.
  - flow_step Htg.
    replace (bool_decide (strip choice ∈ [lit "1"; lit "3"])) with false
      by (symmetry; apply bool_decide_eq_false; intros H; apply Hc;
          apply elem_of_cons in H as [-> | H]; [left |];
          apply list_elem_of_singleton in H; rewrite H; right; right; left).
    destruct (decide (strip choice = lit "2")) as [H | _].
    { exfalso. apply Hc. rewrite H. right. left. }
    cbn [fst snd trace record user_data data_files set_user_data].
    rewrite ?Htg. cbn [fst snd converse]. split; reflexivity.
Qed.

Lemma setup_flow_by_choice_witness :
  let run :=
    converse (doc_setup Cases.env_files) SETUP_CHOICE
      [text_of 7 7 (lit " 3 "); file_of 7 7 (lit "cv.pdf");
       file_of 7 7 (lit "muster.txt")] Sample.nothing in
  fst run = Ok END
  /\ data_files (snd run) !! 7%Z
     = Some {| lebenslauf := Some (lit "Lebenslauf");
               muster := Some (lit "Muster");
               job_prefs := None; job_alert_active := None |}.
Proof.
  pose proof (setup_flow_by_choice Cases.env_files 7 7 (lit " 3 ")
                (lit "cv.pdf") (lit "muster.txt") (lit "Lebenslauf")
                (lit "Muster") Sample.nothing (fun _ _ => eq_refl)
                (fun _ => eq_refl) (fun _ => eq_refl)) as (_ & _ & H & _).
  exact (H eq_refl).
Defined.

(** *** The other ways out of the callback *)








(** *** The callback only reads *)

Lemma keeps_callback {X} (f : World -> X) env query :
  (forall ev w, f (record ev w) = f w) ->
  keeps f (callback_anschreiben env query).
Proof.
  intros Hr. unfold callback_anschreiben.
  unfold answer, reply_text, edit_text, delete, reply_document.
  apply keeps_bind; [apply keeps_transport, Hr | intros _].
  apply keeps_bind; [apply keeps_lift | intros [user_id jid]].
  apply keeps_bind; [intros w; reflexivity | intros data].
  destruct (negb _ || negb _); [apply keeps_transport, Hr |].
  apply keeps_bind.
  { intros w. unfold load_job_from_cache.
    destruct (job_files w !! user_id); reflexivity. }
  intros [job |]; [| apply keeps_transport, Hr].
  apply keeps_bind; [apply keeps_transport, Hr | intros _].
  apply keeps_bind.
  - apply keeps_try_except.
    + apply keeps_bind; [apply keeps_generate, Hr | intros t; apply keeps_ret].
    + intros e. apply keeps_bind; [apply keeps_transport, Hr | intros _].
      apply keeps_ret.
  - intros [anschreiben |]; [| apply keeps_ret].
    apply keeps_bind; [apply keeps_transport, Hr | intros _].
    destruct (_ <=? _)%nat; [apply keeps_transport, Hr |].
    apply keeps_bind; [apply keeps_lift | intros d].
    apply keeps_transport, Hr.
Qed.

(** X16. Pressing a button changes nothing that is stored: on every path
    of the callback, with any payload and any behaviour of transport and
    provider, profiles, caches and collected answers are as before. *)
Theorem callback_stores_unchanged (env : Env) (query : CallbackQuery)
    (w : World) :
  let w' := snd (callback_anschreiben env query w) in
  data_files w' = data_files w
  /\ job_files w' = job_files w
  /\ user_data w' = user_data w.
Proof.
  cbv zeta. repeat split; apply keeps_callback; reflexivity.
Qed.

(** *** The cleaned page *)

(** Every whitespace character is a plain space, and none follows
    another; [prev] says that a space came just before (so that
    [spaced true] also excludes a space at the start). *)
Fixpoint spaced (prev : bool) (s : str) : bool :=
  match s with
  | [] => true
  | c :: r =>
      if isspace c then (c =? 0x20) && negb prev && spaced true r
      else spaced false r
  end.

(** Does [<[^>]+>] match somewhere in [s]? *)
Fixpoint has_tag (s : str) : bool :=
  match s with
  | [] => false
  | c :: r => ((c =? 0x3C) && opens_tag r) || has_tag r
  end.

Lemma spaced_sub_spaces (b : bool) (s : str) :
  spaced b (sub_spaces b s) = true.
Proof.
  revert b. induction s as [| c s IH]; intros b; [reflexivity |].
  cbn [sub_spaces]. destruct (isspace c) eqn:Hc.
  - destruct b; [apply IH |]. cbn [spaced].
    change (isspace 0x20) with true. cbv iota. rewrite IH. reflexivity.
  - cbn [spaced]. rewrite Hc. apply IH.
Qed.

Lemma spaced_weaken (b : bool) (s : str) :
  spaced true s = true -> spaced b s = true.
Proof.
  destruct s as [| c r]; [reflexivity |]. cbn [spaced].
  destruct (isspace c); [| auto]. rewrite andb_false_r. discriminate.
Qed.

Lemma spaced_lstrip (b : bool) (s : str) :
  spaced b s = true -> spaced true (lstrip s) = true.
Proof.
  revert b. induction s as [| c s IH]; intros b H; [reflexivity |].
  cbn [lstrip]. cbn [spaced] in H. destruct (isspace c) eqn:Hc.
  - apply andb_true_iff in H as [_ H]. apply (IH true H).
  - cbn [spaced]. rewrite Hc. exact H.
Qed.

Lemma spaced_prefix (b : bool) (p t : str) :
  spaced b (p ++ t) = true -> spaced b p = true.
Proof.
  revert b. induction p as [| c p IH]; intros b H; [reflexivity |].
  cbn [app spaced] in *. destruct (isspace c).
  - apply andb_true_iff in H as [H1 H2]. rewrite H1. apply (IH true H2).
  - apply (IH false H).
Qed.

Lemma lstrip_suffix (s : str) : exists a, s = a ++ lstrip s.
Proof.
  induction s as [| c s [a IH]]; [exists []; reflexivity |].
  cbn [lstrip]. destruct (isspace c).
  - exists (c :: a). cbn. rewrite <- IH. reflexivity.
  - exists []. reflexivity.
Qed.

Lemma rstrip_prefix (s : str) : exists t, s = rstrip s ++ t.
Proof.
  unfold rstrip. destruct (lstrip_suffix (rev s)) as [a Ha].
  exists (rev a). rewrite <- rev_app_distr, <- Ha, rev_involutive. reflexivity.
Qed.

Lemma firstn_prefix (n : nat) (s : str) : exists t, s = firstn n s ++ t.
Proof. exists (skipn n s). symmetry. apply firstn_skipn. Qed.

Lemma has_gt_app (p t : str) : has_gt p = true -> has_gt (p ++ t) = true.
Proof.
  induction p as [| c p IH]; [discriminate |]. cbn [app has_gt].
  destruct (c =? 0x3E); [reflexivity | exact IH].
Qed.

Lemma opens_tag_app (p t : str) :
  opens_tag p = true -> opens_tag (p ++ t) = true.
Proof.
  destruct p as [| x p]; [discriminate |]. cbn [app opens_tag].
  intros H. apply andb_true_iff in H as [H1 H2].
  rewrite H1, (has_gt_app _ _ H2). reflexivity.
Qed.

Lemma has_tag_prefix (p t : str) :
  has_tag (p ++ t) = false -> has_tag p = false.
Proof.
  induction p as [| c p IH]; [reflexivity |]. cbn [app has_tag].
  intros H. apply orb_false_iff in H as [H1 H2].
  rewrite (IH H2), orb_false_r.
  destruct (c =? 0x3C); [| reflexivity]. cbn [andb] in *.
  destruct (opens_tag p) eqn:Ho; [| reflexivity].
  rewrite (opens_tag_app _ _ Ho) in H1. discriminate.
Qed.

Lemma has_tag_lstrip (s : str) : has_tag s = false -> has_tag (lstrip s) = false.
Proof.
  induction s as [| c s IH]; [reflexivity |]. cbn [lstrip].
  destruct (isspace c); [| auto]. cbn [has_tag]. intros H.
  apply orb_false_iff in H as [_ H]. apply IH, H.
Qed.

Lemma no_gt_no_open (s : str) : has_gt s = false -> opens_tag s = false.
Proof.
  destruct s as [| x r]; [reflexivity |]. cbn [has_gt opens_tag].
  intros H. apply orb_false_iff in H as [_ H]. rewrite H. apply andb_false_r.
Qed.

Lemma no_gt_sub_tags (b : bool) (s : str) :
  has_gt s = false -> has_gt (sub_tags b s) = false.
Proof.
  revert b. induction s as [| c s IH]; intros b H; [reflexivity |].
  cbn [has_gt] in H. apply orb_false_iff in H as [Hc H].
  cbn [sub_tags]. rewrite Hc. destruct b; [apply IH, H |].
  destruct ((c =? 0x3C) && opens_tag s); [apply IH, H |].
  cbn [has_gt]. rewrite Hc. apply IH, H.
Qed.

Lemma no_gt_sub_spaces (b : bool) (s : str) :
  has_gt s = false -> has_gt (sub_spaces b s) = false.
Proof.
  revert b. induction s as [| c s IH]; intros b H; [reflexivity |].
  cbn [has_gt] in H. apply orb_false_iff in H as [Hc H].
  cbn [sub_spaces]. destruct (isspace c).
  - destruct b; [apply IH, H |]. cbn [has_gt]. apply IH, H.
  - cbn [has_gt]. rewrite Hc. apply IH, H.
Qed.

Lemma no_open_sub_tags (s : str) :
  opens_tag s = false -> opens_tag (sub_tags false s) = false.
Proof.
  destruct s as [| x r]; [reflexivity |]. cbn [opens_tag]. intros H.
  destruct (x =? 0x3E) eqn:Hx.
  - cbn [sub_tags].
    replace (x =? 0x3C) with false
      by (apply N.eqb_eq in Hx; subst x; reflexivity).
    cbn [andb opens_tag]. rewrite Hx. reflexivity.
  - cbn [negb andb] in H. apply no_gt_no_open, no_gt_sub_tags.
    cbn [has_gt]. rewrite Hx, H. reflexivity.
Qed.

Lemma no_open_sub_spaces (b : bool) (s : str) :
  opens_tag s = false -> opens_tag (sub_spaces b s) = false.
Proof.
  destruct s as [| x r]; [reflexivity |]. cbn [opens_tag]. intros H.
  destruct (x =? 0x3E) eqn:Hx.
  - apply N.eqb_eq in Hx. subst x. cbn [sub_spaces].
    change (isspace 0x3E) with false. cbv iota. reflexivity.
  - cbn [negb andb] in H. apply no_gt_no_open, no_gt_sub_spaces.
    cbn [has_gt]. rewrite Hx, H. reflexivity.
Qed.

Lemma no_tag_sub_tags (b : bool) (s : str) : has_tag (sub_tags b s) = false.
Proof.
  revert b. induction s as [| c s IH]; intros b; [destruct b; reflexivity |].
  cbn [sub_tags]. destruct b.
  - destruct (c =? 0x3E); [| apply IH]. cbn [has_tag]. apply IH.
  - destruct ((c =? 0x3C) && opens_tag s) eqn:Hm; [apply IH |].
    cbn [has_tag]. rewrite IH, orb_false_r.
    destruct (c =? 0x3C); [| reflexivity]. cbn [andb] in *.
    apply no_open_sub_tags, Hm.
Qed.

Lemma no_tag_sub_spaces (b : bool) (s : str) :
  has_tag s = false -> has_tag (sub_spaces b s) = false.
Proof.
  revert b. induction s as [| c s IH]; intros b H; [reflexivity |].
  cbn [has_tag] in H. apply orb_false_iff in H as [H1 H2].
  cbn [sub_spaces]. destruct (isspace c) eqn:Hc.
  - destruct b; [apply IH, H2 |]. cbn [has_tag]. apply IH, H2.
  - cbn [has_tag]. rewrite (IH false H2), orb_false_r.
    destruct (c =? 0x3C); [| reflexivity]. cbn [andb] in *.
    apply no_open_sub_spaces, H1.
Qed.

Lemma no_tag_fixed (s : str) : has_tag s = false -> sub_tags false s = s.
Proof.
  induction s as [| c s IH]; [reflexivity |]. cbn [has_tag sub_tags].
  intros H. apply orb_false_iff in H as [H1 H2]. rewrite H1, (IH H2).
  reflexivity.
Qed.

(** X17. The text made of a fetched page has at most 12000 characters;
    its only whitespace is single plain spaces, none at the start; and
    no markup tag is left in it: substituting tags again changes
    nothing. *)
Theorem clean_page_clean (html : str) :
  (length (clean_page html) <= 12 * 1000)%nat
  /\ spaced true (clean_page html) = true
  /\ sub_tags false (clean_page html) = clean_page html.
Proof.
  unfold clean_page, strip.
  set (s := sub_spaces false (sub_tags false html)).
  destruct (rstrip_prefix (lstrip s)) as [t Ht].
  destruct (firstn_prefix (12 * 1000) (rstrip (lstrip s))) as [t' Ht'].
  split; [apply prefix_length |]. split.
  - unfold Py.prefix. apply (spaced_prefix true _ t'). rewrite <- Ht'.
    apply (spaced_prefix true _ t). rewrite <- Ht.
    apply (spaced_lstrip false). apply spaced_sub_spaces.
  - apply no_tag_fixed. unfold Py.prefix.
    apply (has_tag_prefix _ t'). rewrite <- Ht'.
    apply (has_tag_prefix _ t). rewrite <- Ht.
    apply has_tag_lstrip, no_tag_sub_spaces, no_tag_sub_tags.
Qed.

Example clean_page_sample :
  clean_page (lit "<html><body><h1>Data  Analyst</h1>" ++ [0x0A; 0x09]
              ++ lit "<p class='x'>SQL &amp; <b>Python</b> a<>b < c</p></body>")
  = lit "Data Analyst SQL &amp; Python a<>b".
Proof. vm_compute. reflexivity. Qed.

(** *** Reading back what was encoded *)

Lemma utf8_mod_bounds (c : N) :
  c mod 64 < 64 /\ (c / 64) mod 64 < 64 /\ (c / 4096) mod 64 < 64.
Proof. repeat split; apply N.mod_lt; discriminate. Qed.

Ltac to_bools :=
  repeat match goal with
         | |- (_ && _)%bool = true => apply andb_true_iff; split
         | |- (_ || _)%bool = true => apply orb_true_iff
         | |- (_ <=? _) = true => apply N.leb_le
         | |- (_ <? _) = true => apply N.ltb_lt
         | |- (_ <? _) = false => apply N.ltb_ge
         end.

(** One encoded code point at the head of a byte sequence is read back
    as that code point, and decoding goes on behind it. *)
Lemma utf8_decode_encode1 (c : N) (b rest : bytes) :
  encode1 c = Some b ->
  utf8_decode (b ++ rest) = cons c <$> utf8_decode rest.
Proof.
  unfold encode1. rewrite !land_low6, !N.shiftr_div_pow2.
  change (2 ^ 6) with 64. change (2 ^ 12) with 4096.
  change (2 ^ 18) with 262144.
  intros H. pose proof (utf8_digits c) as (D1 & D2 & D3).
  pose proof (utf8_mod_bounds c) as (M1 & M2 & M3).
  encode1_cases H; bools; cbn [app utf8_decode].
  - replace (c <? 128) with true by (symmetry; apply N.ltb_lt; lia).
    reflexivity.
  - set (q := c / 64) in *. set (m := c mod 64) in *.
    replace (192 + q <? 128) with false by (symmetry; apply N.ltb_ge; lia).
    replace ((194 <=? 192 + q) && (192 + q <=? 223)) with true
      by (symmetry; to_bools; lia).
    unfold continuation.
    replace ((128 <=? 128 + m) && (128 + m <=? 191)) with true
      by (symmetry; to_bools; lia).
    replace ((192 + q - 192) * 64 + (128 + m - 128)) with c by lia.
    reflexivity.
  - assert (Hsur : c < 55296 \/ 57343 < c)
      by (match goal with H : _ \/ _ |- _ => destruct H end; bools; lia).
    set (q2 := c / 4096) in *. set (q := c / 64) in *.
    set (m1 := q mod 64) in *. set (m := c mod 64) in *.
    replace (224 + q2 <? 128) with false by (symmetry; apply N.ltb_ge; lia).
    replace ((194 <=? 224 + q2) && (224 + q2 <=? 223)) with false
      by (symmetry; apply andb_false_iff; right; apply N.leb_gt; lia).
    replace ((224 <=? 224 + q2) && (224 + q2 <=? 239)) with true
      by (symmetry; to_bools; lia).
    unfold continuation.
    replace ((128 <=? 128 + m1) && (128 + m1 <=? 191)) with true
      by (symmetry; to_bools; lia).
    replace ((128 <=? 128 + m) && (128 + m <=? 191)) with true
      by (symmetry; to_bools; lia).
    replace (negb (224 + q2 =? 224) || (160 <=? 128 + m1)) with true.
    2:{ symmetry. destruct (N.eqb_spec (224 + q2) 224); cbn [negb orb];
          [apply N.leb_le; lia | reflexivity]. }
    replace (negb (224 + q2 =? 237) || (128 + m1 <=? 159)) with true.
    2:{ symmetry. destruct (N.eqb_spec (224 + q2) 237); cbn [negb orb];
          [apply N.leb_le; lia | reflexivity]. }
    cbn [andb].
    replace ((224 + q2 - 224) * 4096 + (128 + m1 - 128) * 64 + (128 + m - 128))
      with c by lia.
    reflexivity.
  - set (q3 := c / 262144) in *. set (q2 := c / 4096) in *.
    set (q := c / 64) in *. set (m2 := q2 mod 64) in *.
    set (m1 := q mod 64) in *. set (m := c mod 64) in *.
    replace (240 + q3 <? 128) with false by (symmetry; apply N.ltb_ge; lia).
    replace ((194 <=? 240 + q3) && (240 + q3 <=? 223)) with false
      by (symmetry; apply andb_false_iff; right; apply N.leb_gt; lia).
    replace ((224 <=? 240 + q3) && (240 + q3 <=? 239)) with false
      by (symmetry; apply andb_false_iff; right; apply N.leb_gt; lia).
    replace ((240 <=? 240 + q3) && (240 + q3 <=? 244)) with true
      by (symmetry; to_bools; lia).
    unfold continuation.
    replace ((128 <=? 128 + m2) && (128 + m2 <=? 191)) with true
      by (symmetry; to_bools; lia).
    replace ((128 <=? 128 + m1) && (128 + m1 <=? 191)) with true
      by (symmetry; to_bools; lia).
    replace ((128 <=? 128 + m) && (128 + m <=? 191)) with true
      by (symmetry; to_bools; lia).
    replace (negb (240 + q3 =? 240) || (144 <=? 128 + m2)) with true.
    2:{ symmetry. destruct (N.eqb_spec (240 + q3) 240); cbn [negb orb];
          [apply N.leb_le; lia | reflexivity]. }
    replace (negb (240 + q3 =? 244) || (128 + m2 <=? 143)) with true.
    2:{ symmetry. destruct (N.eqb_spec (240 + q3) 244); cbn [negb orb];
          [apply N.leb_le; lia | reflexivity]. }
    cbn [andb].
    replace ((240 + q3 - 240) * 262144 + (128 + m2 - 128) * 4096
             + (128 + m1 - 128) * 64 + (128 + m - 128)) with c by lia.
    reflexivity.
Qed.

Lemma utf8_decode_encode (text : str) (content : bytes) :
  encode text = Some content -> utf8_decode content = Some text.
Proof.
  revert content. induction text as [| c text IH]; intros content H.
  - injection H as <-. reflexivity.
  - cbn [encode] in H.
    destruct (encode1 c) as [b |] eqn:Hb; [| discriminate].
    destruct (encode text) as [bs |]; [| discriminate].
    injection H as <-.
    rewrite (utf8_decode_encode1 c b bs Hb), (IH bs eq_refl). reflexivity.
Qed.

(** X18. A file whose bytes are the UTF-8 of a text is read as that
    text, code point for code point, whatever the PDF reader would make
    of the bytes. *)
Theorem decode_content_round_trip (pdf_pages : bytes -> Res (list str))
    (content : bytes) (text : str) :
  encode text = Some content -> decode_content pdf_pages content = text.
Proof.
  intros H. unfold decode_content. rewrite (utf8_decode_encode _ _ H).
  reflexivity.
Qed.

Lemma decode_content_round_trip_witness :
  decode_content Cases.pdf_none [0x4B; 0xC3; 0xA4; 0x73; 0x65]
  = [0x4B; 0xE4; 0x73; 0x65].
Proof.
  apply (decode_content_round_trip Cases.pdf_none
           [0x4B; 0xC3; 0xA4; 0x73; 0x65] [0x4B; 0xE4; 0x73; 0x65]).
  vm_compute. reflexivity.
Defined.

Example utf8_decode_rejects :
  (utf8_decode [0xC0; 0x80], utf8_decode [0xED; 0xA0; 0x80],
   utf8_decode [0xE4], utf8_decode [0x80], utf8_decode [0xF4; 0x90; 0x80; 0x80],
   utf8_decode [0xE2; 0x82; 0xAC])
  = (None, None, None, None, None, Some [0x20AC]).
Proof. reflexivity. Qed.

(** *** Typing a time *)

Lemma str_of_Z_nonempty (n : Z) : str_of_Z n <> [].
Proof.
  intros H. pose proof (int_str_of_Z n) as Hi. rewrite H in Hi. discriminate.
Qed.

(** X19. A time typed as two integers with a colon between them, as
    [str] prints them, is read as exactly these two integers, whatever
    they are. *)
Theorem time_answer_round_trip (env : Env) (hour minute : Z) :
  time_answer env (str_of_Z hour ++ lit ":" ++ str_of_Z minute)
  = Ok (hour, minute).
Proof.
  set (text := str_of_Z hour ++ lit ":" ++ str_of_Z minute).
  assert (Hplain : Forall (fun c => c = 0x2D \/ isdigit c = true \/ c = 0x3A)
                     text).
  { unfold text. apply Forall_app. split.
    - eapply Forall_impl; [apply str_of_Z_chars |]. intros c [H | H]; auto.
    - constructor; [auto |].
      eapply Forall_impl; [apply str_of_Z_chars |]. intros c [H | H]; auto. }
  assert (Hstrip : strip text = text).
  { apply strip_trimmed_id, nospace_trimmed.
    eapply Forall_impl; [exact Hplain |].
    intros c [-> | [Hc | ->]]; [reflexivity | apply isdigit_nospace, Hc |
                                reflexivity]. }
  assert (Hlower : lower text = text).
  { unfold lower. clear Hstrip.
    induction Hplain as [| c s Hc _ IH]; [reflexivity |].
    cbn [List.map]. rewrite IH. f_equal. unfold lower1.
    destruct Hc as [-> | [Hc | ->]]; try reflexivity.
    unfold isdigit in Hc. apply andb_true_iff in Hc as [H1 H2].
    apply N.leb_le in H1, H2.
    replace ((65 <=? c) && (c <=? 90)) with false; [reflexivity |].
    symmetry. apply andb_false_iff. left. apply N.leb_gt. lia. }
  unfold time_answer. rewrite Hstrip, Hlower.
  destruct (decide (text = lit "ok")) as [Hok | _].
  { exfalso. pose proof (str_of_Z_chars hour) as Hh.
    unfold text in Hok. destruct (str_of_Z hour) as [| c s] eqn:Hs.
    - exact (str_of_Z_nonempty hour Hs).
    - injection Hok as -> _. apply Forall_cons in Hh as [[H | H] _];
        [discriminate | vm_compute in H; discriminate]. }
  unfold parse_time, text.
  change (lit ":" ++ str_of_Z minute) with (0x3A :: str_of_Z minute).
  rewrite split_app_sep by apply str_of_Z_no_colon.
  rewrite split_no_sep by apply str_of_Z_no_colon.
  cbn [nth length]. rewrite !int_str_of_Z. reflexivity.
Qed.

(** *** A letter from a link *)

Section Link.

Variable env : Env.
Variable fetch : list Event -> str -> Res str.
Variable show_exn : Exn -> str.

Lemma keeps_handle_url {X} (f : World -> X) update text :
  (forall ev w, f (record ev w) = f w) ->
  keeps f (handle_url env fetch show_exn update text).
Proof.
  intros Hr. unfold handle_url.
  unfold reply_text, edit_text, delete, reply_document.
  apply keeps_bind; [intros w; reflexivity | intros data].
  destruct (negb _ || negb _); [apply keeps_transport, Hr |].
  apply keeps_bind; [apply keeps_transport, Hr | intros _].
  apply keeps_bind.
  { apply keeps_try_except.
    - apply keeps_bind; [| intros page; apply keeps_ret].
      intros w. unfold fetch_url_text. destruct (fetch _ _); reflexivity.
    - intros e. apply keeps_bind; [apply keeps_transport, Hr | intros _].
      apply keeps_ret. }
  intros [page |]; [| apply keeps_ret].
  apply keeps_bind; [apply keeps_transport, Hr | intros _].
  apply keeps_bind.
  - apply keeps_try_except.
    + apply keeps_bind; [apply keeps_generate, Hr | intros t; apply keeps_ret].
    + intros e. apply keeps_bind; [apply keeps_transport, Hr | intros _].
      apply keeps_ret.
  - intros [anschreiben |]; [| apply keeps_ret].
    apply keeps_bind; [apply keeps_transport, Hr | intros _].
    destruct (_ <=? _)%nat; [apply keeps_transport, Hr |].
    apply keeps_bind; [apply keeps_lift | intros d].
    apply keeps_transport, Hr.
Qed.

(** X20. A link changes nothing that is stored: on every path of
    [handle_url], whatever page fetch, transport and provider do,
    profiles, caches and collected answers are as before. *)
Theorem handle_url_stores_unchanged (update : Update) (text : str) (w : World) :
  let w' := snd (handle_url env fetch show_exn update text w) in
  data_files w' = data_files w
  /\ job_files w' = job_files w
  /\ user_data w' = user_data w.
Proof.
  cbv zeta. repeat split; apply keeps_handle_url; reflexivity.
Qed.

Lemma trace_record ev w : trace (record ev w) = trace w ++ [ev].
Proof. reflexivity. Qed.

(** X21. Whatever [handle_url] asks of the provider, on any path: the
    documents are the sender's stored ones, both non-empty, and the
    posting text is the cleaned body of the page fetched from the
    trimmed message, hence at most 12000 characters long. In particular
    a sender without both documents causes no provider call. *)
Theorem handle_url_provider_input (update : Update) (text : str) (w : World)
    (new : list Event) (cv sample posting : str) :
  trace (snd (handle_url env fetch show_exn update text w)) = trace w ++ new ->
  MessagesCreate cv sample posting ∈ new ->
  let data := profile w (effective_user update) in
  lebenslauf data = Some cv /\ cv <> []
  /\ muster data = Some sample /\ sample <> []
  /\ (length posting <= 12 * 1000)%nat
  /\ exists history html,
       fetch history (strip text) = Ok html /\ posting = clean_page html.
Proof.
  intros Htrace Hin. cbv zeta. unfold profile. revert Htrace.
  unfold handle_url.
  unfold bind at 1. unfold load_user_data at 1. cbn [fst snd].
  set (data := default no_data (data_files w !! effective_user update)).
  assert (Hdocs : negb (truthy_str (lebenslauf data))
                  || negb (truthy_str (muster data)) = false ->
                  exists c s, lebenslauf data = Some c /\ c <> []
                              /\ muster data = Some s /\ s <> []).
  { destruct (lebenslauf data) as [[| a c] |]; try discriminate.
    destruct (muster data) as [[| b s] |]; try discriminate.
    intros _. exists (a :: c), (b :: s). repeat split; discriminate. }
  destruct (negb _ || negb _) eqn:Hgate.
  { unfold reply_text, transport.
    destruct (telegram env _ _); cbn [snd]; rewrite trace_record;
      intros H; apply app_inv_head in H; subst new;
      apply list_elem_of_singleton in Hin; discriminate. }
  destruct (Hdocs eq_refl) as (c & s & Hc & Hc0 & Hs & Hs0).
  rewrite Hc, Hs. cbn [default from_option id].
  unfold reply_text, edit_text, delete, reply_document, fetch_url_text,
    generate_anschreiben, try_except, bind, transport, ret, lift.
  cbn [trace record].
  repeat match goal with
         | |- context [telegram env ?h ?ev] =>
             destruct (telegram env h ev); cbn [fst snd trace record]
         | |- context [fetch ?h ?u] =>
             let E := fresh "Hfetch" in
             destruct (fetch h u) eqn:E; cbn [fst snd trace record]
         | |- context [anthropic env ?h ?a ?b ?p] =>
             destruct (anthropic env h a b p); cbn [fst snd trace record]
         | |- context [(?n <=? ?m)%nat] =>
             destruct (n <=? m)%nat; cbn [fst snd trace record]
         | |- context [encode ?t] =>
             destruct (encode t); cbn [fst snd trace record from_option]
         end;
    rewrite <- ?app_assoc; cbn [app];
    intros H; apply app_inv_head in H; subst new;
    repeat (apply elem_of_cons in Hin as [Hin | Hin]; [try discriminate Hin |]);
    try (apply elem_of_nil in Hin; contradiction);
    injection Hin as -> -> ->;
    (split; [reflexivity |]); (split; [assumption |]);
    (split; [reflexivity |]); (split; [assumption |]);
    (split; [apply prefix_length |]); eauto.
Qed.

Lemma link_header_length : length link_header = 54%nat.
Proof. reflexivity. Qed.

(** X22. With both documents stored, a transport that accepts every
    call, a page that loads and a provider that answers, a link is
    served in five steps: the loading notice, its replacement by the
    generating notice, the provider call on the stored documents and
    the cleaned page, the removal of the notice, and the delivery: the
    header and the whole letter as one message when the letter has at
    most 4042 characters, else the whole letter, encoded, as the file
    Anschreiben.txt. *)
Theorem handle_url_delivery (update : Update) (text : str) (w : World)
    (cv sample html anschreiben : str) :
  let data := profile w (effective_user update) in
  lebenslauf data = Some cv -> cv <> [] ->
  muster data = Some sample -> sample <> [] ->
  (forall history ev, telegram env history ev = None) ->
  (forall history, fetch history (strip text) = Ok html) ->
  (forall history,
     anthropic env history cv sample (clean_page html) = Ok anschreiben) ->
  let c := chat update in
  let steps :=
    [ReplyText c loading; EditText c generating;
     MessagesCreate cv sample (clean_page html); Delete c] in
  let r := handle_url env fetch show_exn update text w in
  if (length anschreiben <=? 4042)%nat then
    fst r = Ok tt
    /\ trace (snd r)
       = trace w ++ steps ++ [ReplyText c (TLetter (link_header ++ anschreiben))]
  else
    match encode anschreiben with
    | Some document =>
        fst r = Ok tt
        /\ trace (snd r)
           = trace w ++ steps
             ++ [ReplyDocument c document (lit "Anschreiben.txt")
                   (TPlain ([0x1F4C4] ++ lit " Dein Anschreiben (als Datei)"))]
        /\ (forall t, encode t = Some document -> t = anschreiben)
    | None =>
        fst r = Raise UnicodeEncodeError /\ trace (snd r) = trace w ++ steps
    end.
Proof.
  cbv zeta. unfold profile. intros Hcv Hcv0 Hsample Hsample0 Htg Hfetch Hgen.
  unfold handle_url, bind, load_user_data. cbn [fst snd].
  rewrite Hcv, Hsample, !truthy_str_some by assumption.
  cbn [negb orb default from_option id].
  unfold reply_text, edit_text, delete, reply_document, fetch_url_text,
    generate_anschreiben, try_except, bind, transport, ret, lift.
  cbn [trace record]. rewrite !Htg. cbn [fst snd trace record].
  rewrite Hfetch. cbn [fst snd trace record]. rewrite !Htg.
  cbn [fst snd trace record]. rewrite Hgen. cbn [fst snd trace record].
  rewrite !Htg. cbn [fst snd trace record].
  replace (length (link_header ++ anschreiben) <=? 4096)%nat
    with (length anschreiben <=? 4042)%nat.
  2:{ rewrite length_app, link_header_length.
      destruct (Nat.leb_spec (length anschreiben) 4042);
        destruct (Nat.leb_spec (54 + length anschreiben) 4096); lia. }
  destruct (length anschreiben <=? 4042)%nat.
  - rewrite !Htg. cbn [fst snd trace record]. split; [reflexivity |].
    rewrite <- ?app_assoc. reflexivity.
  - destruct (encode anschreiben) as [document |] eqn:Hdoc;
      cbn [from_option fst snd trace record].
    + rewrite !Htg. cbn [fst snd trace record]. split; [reflexivity |].
      split; [rewrite <- ?app_assoc; reflexivity |].
      intros t Ht. exact (encode_injective _ _ _ Ht Hdoc).
    + split; [reflexivity |]. rewrite <- ?app_assoc. reflexivity.
Qed.

(** X23. When the page cannot be loaded, the sender is told why by an
    edit of the loading notice and the handler ends normally; when the
    provider raises, likewise by an edit of the generating notice.
    Nothing is delivered in either case, and in the first the provider
    is not called. *)
Theorem handle_url_errors (update : Update) (text : str) (w : World)
    (cv sample : str) (e : Exn) :
  let data := profile w (effective_user update) in
  lebenslauf data = Some cv -> cv <> [] ->
  muster data = Some sample -> sample <> [] ->
  (forall history ev, telegram env history ev = None) ->
  let c := chat update in
  let r := handle_url env fetch show_exn update text w in
  ((forall history, fetch history (strip text) = Raise e) ->
   fst r = Ok tt
   /\ trace (snd r)
      = trace w
        ++ [ReplyText c loading;
            EditText c (TPlain ([0x274C]
                                ++ lit " URL konnte nicht geladen werden: "
                                ++ show_exn e))])
  /\ (forall html,
        (forall history, fetch history (strip text) = Ok html) ->
        (forall history,
           anthropic env history cv sample (clean_page html) = Raise e) ->
        fst r = Ok tt
        /\ trace (snd r)
           = trace w
             ++ [ReplyText c loading; EditText c generating;
                 MessagesCreate cv sample (clean_page html);
                 EditText c (TPlain ([0x274C]
                                     ++ lit " Fehler bei der Generierung: "
                                     ++ show_exn e))]).
Proof.
  cbv zeta. unfold profile. intros Hcv Hcv0 Hsample Hsample0 Htg.
  unfold handle_url, bind, load_user_data. cbn [fst snd].
  rewrite Hcv, Hsample, !truthy_str_some by assumption.
  cbn [negb orb default from_option id].
  unfold reply_text, edit_text, delete, reply_document, fetch_url_text,
    generate_anschreiben, try_except, bind, transport, ret, lift.
  cbn [trace record]. rewrite !Htg. cbn [fst snd trace record].
  split.
  - intros Hfetch. rewrite Hfetch. cbn [fst snd trace record]. rewrite !Htg.
    cbn [fst snd trace record]. split; [reflexivity |].
    rewrite <- ?app_assoc. reflexivity.
  - intros html Hfetch Hgen. rewrite Hfetch. cbn [fst snd trace record].
    rewrite !Htg. cbn [fst snd trace record]. rewrite Hgen.
    cbn [fst snd trace record]. rewrite !Htg. cbn [fst snd trace record].
    split; [reflexivity |]. rewrite <- ?app_assoc. reflexivity.
Qed.

End Link.

Lemma handle_url_provider_input_witness :
  let data := profile Sample.one_subscriber 7 in
  lebenslauf data = Some (lit "Lebenslauf") /\ lit "Lebenslauf" <> []
  /\ muster data = Some (lit "Muster") /\ lit "Muster" <> []
  /\ (length (lit "Data Analyst SQL &amp; Python") <= 12 * 1000)%nat
  /\ exists history html,
       Cases.fetch_ok history (strip (lit " https://jobs.example/2 ")) = Ok html
       /\ lit "Data Analyst SQL &amp; Python" = clean_page html.
Proof.
  apply (handle_url_provider_input Sample.env_ok Cases.fetch_ok Cases.show_exn
           Cases.link (lit " https://jobs.example/2 ") Sample.one_subscriber
           [ReplyText 7 loading; EditText 7 generating;
            MessagesCreate (lit "Lebenslauf") (lit "Muster")
              (lit "Data Analyst SQL &amp; Python");
            Delete 7;
            ReplyText 7 (TLetter (link_header
                                  ++ lit "Sehr geehrte Damen und Herren"))]).
  - vm_compute. reflexivity.
  - vm_compute. repeat constructor.
Defined.

Lemma handle_url_delivery_witness :
  let r := handle_url Sample.env_ok Cases.fetch_ok Cases.show_exn Cases.link
             (lit " https://jobs.example/2 ") Sample.one_subscriber in
  fst r = Ok tt
  /\ trace (snd r)
     = [ReplyText 7 loading; EditText 7 generating;
        MessagesCreate (lit "Lebenslauf") (lit "Muster")
          (lit "Data Analyst SQL &amp; Python");
        Delete 7;
        ReplyText 7 (TLetter (link_header
                              ++ lit "Sehr geehrte Damen und Herren"))].
Proof.
  exact (handle_url_delivery Sample.env_ok Cases.fetch_ok Cases.show_exn
           Cases.link (lit " https://jobs.example/2 ") Sample.one_subscriber
           (lit "Lebenslauf") (lit "Muster") Cases.page
           (lit "Sehr geehrte Damen und Herren")
           eq_refl ltac:(discriminate) eq_refl ltac:(discriminate)
           (fun _ _ => eq_refl) (fun _ => eq_refl) (fun _ => eq_refl)).
Defined.

Lemma handle_url_errors_witness :
  let r := handle_url Sample.env_ok Cases.fetch_down Cases.show_exn Cases.link
             (lit " https://jobs.example/2 ") Sample.one_subscriber in
  fst r = Ok tt
  /\ trace (snd r)
     = [ReplyText 7 loading;
        EditText 7 (TPlain ([0x274C] ++ lit " URL konnte nicht geladen werden: "
                            ++ lit "404 Not Found"))].
Proof.
  exact (proj1 (handle_url_errors Sample.env_ok Cases.fetch_down Cases.show_exn
                  Cases.link (lit " https://jobs.example/2 ")
                  Sample.one_subscriber (lit "Lebenslauf") (lit "Muster")
                  (DownloadError 404)
                  eq_refl ltac:(discriminate) eq_refl ltac:(discriminate)
                  (fun _ _ => eq_refl))
           (fun _ => eq_refl)).
Defined.

(** *** Two postings with one id *)

Lemma job_dict_last (jobs : list Job) (m c : gmap str Job) (jid : str)
    (j : Job) :
  job_dict jobs m = Ok c -> c !! jid = Some j ->
  (exists before after,
     jobs = before ++ j :: after /\ job_id j = Ok jid
     /\ Forall (fun k => job_id k <> Ok jid) after)
  \/ (m !! jid = Some j /\ Forall (fun k => job_id k <> Ok jid) jobs).
Proof.
  revert m. induction jobs as [| j0 jobs IH]; intros m Hd Hc; simpl in Hd.
  - right. split; [congruence | constructor].
  - destruct (job_id j0) as [i0 | e] eqn:Hi0; [| discriminate].
    destruct (IH _ Hd Hc) as [(before & after & -> & Hid & Hafter) | [Hm Hall]].
    + left. exists (j0 :: before), after. repeat split; assumption.
    + destruct (decide (i0 = jid)) as [-> | Hne].
      * rewrite lookup_insert_eq in Hm. injection Hm as <-.
        left. exists [], jobs. repeat split; assumption.
      * rewrite lookup_insert_ne in Hm by exact Hne. right.
        split; [exact Hm |]. constructor; [congruence | exact Hall].
Qed.

Lemma job_dict_holds_last (before after : list Job) (m c : gmap str Job)
    (jid : str) (j : Job) :
  job_dict (before ++ j :: after) m = Ok c -> job_id j = Ok jid ->
  Forall (fun k => job_id k <> Ok jid) after ->
  c !! jid = Some j.
Proof.
  revert m. induction before as [| j0 before IH]; intros m Hd Hid Hafter;
    simpl in Hd.
  - rewrite Hid in Hd. rewrite (job_dict_other _ _ _ jid Hd).
    + apply lookup_insert_eq.
    + intros k Hk. rewrite Forall_forall in Hafter. apply Hafter, Hk.
  - destruct (job_id j0); [| discriminate]. exact (IH _ Hd Hid Hafter).
Qed.

(** X24. After a batch has been cached, an id resolves to a posting
    exactly if that posting is the last one of the batch with this id:
    of two postings that share an id, the later one is kept, so the
    button of the earlier card resolves to the later posting. *)
Theorem cache_last_posting_wins (uid : Z) (jobs : list Job) (w w' : World)
    (jid : str) (j : Job) :
  save_job_cache uid jobs w = (Ok tt, w') ->
  fst (load_job_from_cache uid jid w') = Ok (Some j)
  <-> exists before after,
        jobs = before ++ j :: after /\ job_id j = Ok jid
        /\ Forall (fun k => job_id k <> Ok jid) after.
Proof.
  unfold save_job_cache, bind, lift.
  destruct (job_dict jobs ∅) as [c | e] eqn:Hc; [| discriminate].
  intros [= <-]. unfold load_job_from_cache.
  cbn [job_files set_job_files]. rewrite lookup_insert_eq. cbn [fst].
  split.
  - intros [= Hl].
    destruct (job_dict_last _ _ _ _ _ Hc Hl) as [H | [H _]]; [exact H |].
    rewrite lookup_empty in H. discriminate.
  - intros (before & after & -> & Hid & Hafter).
    rewrite (job_dict_holds_last _ _ _ _ _ _ Hc Hid Hafter). reflexivity.
Qed.

Lemma cache_last_posting_wins_witness :
  fst (load_job_from_cache 7 (lit "a8585d9290c3")
         (snd (save_job_cache 7 [Sample.analyst; Sample.analyst_refetched]
                 Sample.nothing)))
  = Ok (Some Sample.analyst_refetched).
Proof.
  apply (cache_last_posting_wins 7 [Sample.analyst; Sample.analyst_refetched]
           Sample.nothing _ (lit "a8585d9290c3") Sample.analyst_refetched).
  - vm_compute. reflexivity.
  - exists [Sample.analyst], []. split; [reflexivity |].
    split; [vm_compute; reflexivity | constructor].
Defined.
